(** * Runtime hosts override plugins (GitHub520 -> CheckTMDB)

    A shallow embedding of the two near-identical MoviePilot plugins
    - [src/github_tmdb_runtime_hosts/__init__.py]      (module [V1] below)
    - [src/plugins.v2/tmdb_runtime_hosts/__init__.py]  (module [V2] below)

    Python strings are modelled as [String.string] over ASCII characters;
    [str.strip], [str.split], [str.splitlines] and [str.lower] are written
    out for the ASCII subset of Python's whitespace, line-boundary and
    upper-case tables.  Python dicts are [gmap string entry] values stored
    in a heap of dict objects, so that the aliasing between the dict passed
    to the patch function and later in-place updates is visible.
    [ipaddress.ip_address], the platform [getaddrinfo] and the network are
    parameters of the development (they are outside this repository). *)

From stdpp Require Import base gmap strings list fin_maps.
From Stdlib Require Import Ascii String ZArith.
Local Open Scope Z_scope.

(* ------------------------------------------------------------------ *)
(** ** Python string primitives (ASCII subset) *)

(** [str.isspace] on ASCII: \t \n \v \f \r, the separators 0x1c-0x1f, space. *)
Definition is_space (c : ascii) : bool :=
  let n := nat_of_ascii c in
  ((9 <=? n) && (n <=? 13))%nat || ((28 <=? n) && (n <=? 32))%nat.

(** Line boundaries of [str.splitlines] on ASCII: \n \r \v \f 0x1c 0x1d 0x1e
    (\r\n counts as one boundary). *)
Definition is_linebreak (c : ascii) : bool :=
  let n := nat_of_ascii c in
  ((10 <=? n) && (n <=? 13))%nat || ((28 <=? n) && (n <=? 30))%nat.

Definition CR : ascii := ascii_of_nat 13.
Definition LF : ascii := ascii_of_nat 10.
Definition HASH : ascii := ascii_of_nat 35.
Definition COLON : ascii := ascii_of_nat 58.

(** [str.lstrip()] *)
Fixpoint lstrip (s : string) : string :=
  match s with
  | EmptyString => EmptyString
  | String c r => if is_space c then lstrip r else s
  end.

(** [str.rstrip()] *)
Fixpoint rstrip (s : string) : string :=
  match s with
  | EmptyString => EmptyString
  | String c r =>
      let r' := rstrip r in
      match r' with
      | EmptyString => if is_space c then EmptyString else String c EmptyString
      | _ => String c r'
      end
  end.

(** [str.strip()] *)
Definition strip (s : string) : string := rstrip (lstrip s).

(** [str.split()] without arguments: maximal runs of non-whitespace.
    [split_aux s] returns the token starting at the head of [s] (possibly
    empty) and the tokens after it. *)
Fixpoint split_aux (s : string) : string * list string :=
  match s with
  | EmptyString => (EmptyString, [])
  | String c r =>
      let '(tok, toks) := split_aux r in
      if is_space c
      then (EmptyString, match tok with EmptyString => toks | _ => tok :: toks end)
      else (String c tok, toks)
  end.

Definition split (s : string) : list string :=
  let '(tok, toks) := split_aux s in
  match tok with EmptyString => toks | _ => tok :: toks end.

(** [str.splitlines()]: [cur] is the current line, reversed. *)
Fixpoint splitlines_go (cur : list ascii) (s : string) : list string :=
  match s with
  | EmptyString =>
      match cur with [] => [] | _ => [string_of_list_ascii (rev cur)] end
  | String c r =>
      if Ascii.eqb c CR then
        match r with
        | String c' r' =>
            if Ascii.eqb c' LF
            then string_of_list_ascii (rev cur) :: splitlines_go [] r'
            else string_of_list_ascii (rev cur) :: splitlines_go [] r
        | EmptyString => string_of_list_ascii (rev cur) :: splitlines_go [] r
        end
      else if is_linebreak c
      then string_of_list_ascii (rev cur) :: splitlines_go [] r
      else splitlines_go (c :: cur) r
  end.

Definition splitlines (s : string) : list string := splitlines_go [] s.

(** [str.lower()] on ASCII. *)
Definition lower_char (c : ascii) : ascii :=
  let n := nat_of_ascii c in
  if ((65 <=? n) && (n <=? 90))%nat then ascii_of_nat (n + 32) else c.

Fixpoint lower (s : string) : string :=
  match s with
  | EmptyString => EmptyString
  | String c r => String (lower_char c) (lower r)
  end.

(** [s.startswith("#")] *)
Definition startswith_hash (s : string) : bool :=
  match s with String c _ => Ascii.eqb c HASH | EmptyString => false end.

(** [":" in s] *)
Fixpoint contains_colon (s : string) : bool :=
  match s with
  | EmptyString => false
  | String c r => Ascii.eqb c COLON || contains_colon r
  end.

(* ------------------------------------------------------------------ *)
(** ** Data model *)

(** [socket.AF_INET], [socket.AF_INET6], [socket.SOCK_STREAM] (Linux values). *)
Definition AF_INET : Z := 2.
Definition AF_INET6 : Z := 10.
Definition SOCK_STREAM : Z := 1.
Definition SOCK_DGRAM : Z := 2.

(** A dict value [(ip, af)] of [Dict[str, Tuple[str, socket.AddressFamily]]]. *)
Abbreviation entry := (string * Z)%type.

(** Addresses of Python dict objects. *)
Definition loc : Type := positive.

(** Socket addresses returned by [getaddrinfo]: the 2-tuple [(ip, port)]
    and the IPv6 4-tuple [(ip, port, flowinfo, scope_id)]. *)
Inductive sockaddr : Type :=
| SA2 (ip : string) (port : Z)
| SA4 (ip : string) (port flowinfo scope_id : Z).

(** One result tuple [(family, type, proto, canonname, sockaddr)]. *)
Record addrinfo : Type := mkAddrinfo {
  ai_family : Z; ai_socktype : Z; ai_proto : Z;
  ai_canonname : string; ai_sockaddr : sockaddr }.

(** The optional arguments [*a] of [getaddrinfo(host, port, family, type, proto, flags)]. *)
Record hints : Type := mkHints {
  h_family : Z; h_type : Z; h_proto : Z; h_flags : Z }.

(** What a call of [getaddrinfo] produces: a list, or a raised exception. *)
Inductive gai_result : Type :=
| GaiList (l : list addrinfo)
| GaiRaise (e : string).

(** Exceptions raised by [requests]. *)
Inductive exc : Type :=
| ConnectionError (msg : string)
| Timeout
| HTTPError (status : Z).

(** What [requests.get] / [requests.head] give back. *)
Inductive http_outcome : Type :=
| Raised (e : exc)
| Response (status : Z) (body : string).

(** The world outside this repository. *)
Record env : Type := mkEnv {
  (** [ipaddress.ip_address(addr)] returns without [ValueError] *)
  ip_address_ok : string -> bool;
  (** the platform [socket.getaddrinfo] present when the module is loaded *)
  platform_getaddrinfo : string -> Z -> hints -> gai_result;
  (** [requests.get(url, timeout=15)] *)
  http_get : string -> http_outcome;
  (** [requests.head(url, timeout=...)] *)
  http_head : string -> http_outcome }.

(** [resp.raise_for_status()] followed by [resp.text]: requests raises
    [HTTPError] for 4xx and 5xx statuses only. *)
Definition raise_for_status (r : http_outcome) : exc + string :=
  match r with
  | Raised e => inl e
  | Response st body =>
      if (400 <=? st) && (st <? 600) then inl (HTTPError st) else inr body
  end.

(* ------------------------------------------------------------------ *)
(** ** Parsing hosts text (the loop body of [_load_hosts]) *)

Section Parse.
Context (E : env).

(** [_is_valid_ip] *)
Definition _is_valid_ip (addr : string) : bool := ip_address_ok E addr.

(** One iteration of [for line in resp.text.splitlines()]: the key and
    value stored by [hosts[host] = (ip, af)], if any. *)
Definition parse_line (line0 : string) : option (string * entry) :=
  let line := strip line0 in
  match line with
  | EmptyString => None
  | _ =>
      if startswith_hash line then None else
      let parts := split line in
      if (2 <=? List.length parts)%nat then
        match parts with
        | ip :: _ =>
            let host := lower (List.last parts EmptyString) in
            if _is_valid_ip ip then
              let af := if contains_colon ip then AF_INET6 else AF_INET in
              Some (host, (ip, af))
            else None
        | [] => None
        end
      else None
  end.

(** The loop over the lines, storing into the dict [hosts]. *)
Definition parse_into (hosts : gmap string entry) (text : string) : gmap string entry :=
  fold_left (fun h line =>
               match parse_line line with
               | Some (host, e) => <[host := e]> h
               | None => h
               end) (splitlines text) hosts.

(** The table parsed from a response body into a fresh [{}]. *)
Definition parse_hosts (text : string) : gmap string entry := parse_into ∅ text.

End Parse.

(** [d.update(other)] and [{**d, **other}]: [other]'s entries win. *)
Definition dict_merge (base overlay : gmap string entry) : gmap string entry :=
  overlay ∪ base.

(* ------------------------------------------------------------------ *)
(** ** Process state *)

(** The value of [socket.getaddrinfo] (and of [_ORIGINAL_GETADDRINFO]):
    the platform function, or a [_patched] / [patched_getaddrinfo] closure
    over the dict object at a location. *)
Inductive resolver : Type :=
| Orig
| Patched (hosts : loc).

Inductive level : Type := INFO | WARNING | ERROR.

(** Log messages, one constructor per [logger] call site. *)
Inductive message : Type :=
| MsgFetchFailed (url : string) (cause : exc)  (* "拉取 %s 失败" / "加载 {url} 失败" *)
| MsgLoaded (n : nat) (url : string)           (* "成功加载 {n} 条记录 from {url}" *)
| MsgProbeOk (url : string)                    (* "{url} 连通性测试成功" *)
| MsgProbeFailed (url : string) (cause : exc)  (* "{url} 连通性测试失败: {e}" *)
| MsgRawOk                                     (* "GitHub Raw 连通性 OK" *)
| MsgRawDown (cause : exc)                     (* "GitHub Raw 不通: %s" *)
| MsgPrimaryEmpty                              (* "GitHub520 ... 为空/加载失败，跳过" *)
| MsgGateClosed                                (* "GitHub ... 不可达/测试失败，跳过 TMDB" *)
| MsgMerged (n : nat)                          (* "合并 ... 总计 n 条" *)
| MsgPatched                                   (* "DNS劫持已生效" *)
| MsgUpdateStart | MsgUpdateDone
| MsgEnabled | MsgDisabled | MsgJobRegistered (hour : Z) | MsgInitDone | MsgStopped.

Definition log_entry : Type := (level * message)%type.

(** Network requests issued, in order. *)
Inductive net_event : Type :=
| EvGet (url : string)
| EvHead (url : string).

Record state : Type := mkState {
  heap : gmap loc (gmap string entry);  (* live dict objects *)
  getaddrinfo : resolver;               (* socket.getaddrinfo *)
  original : resolver;                  (* module global _ORIGINAL_GETADDRINFO *)
  runtime_hosts : loc;                  (* module global _RUNTIME_HOSTS *)
  jobs : gset string;                   (* ids of the registered scheduler jobs *)
  logs : list log_entry;
  trace : list net_event }.

(** The module right after import: [_ORIGINAL_GETADDRINFO = socket.getaddrinfo]
    and [_RUNTIME_HOSTS = {}] (the dict at location 1). *)
Definition module_load : state :=
  {| heap := {[ 1%positive := ∅ ]}; getaddrinfo := Orig; original := Orig;
     runtime_hosts := 1%positive; jobs := ∅; logs := []; trace := [] |}.

(** A small state monad. *)
Definition M (A : Type) : Type := state -> A * state.

Global Instance M_ret : MRet M := fun A a s => (a, s).
Global Instance M_bind : MBind M := fun A B f m s => let '(a, s') := m s in f a s'.

Definition modify (f : state -> state) : M unit := fun s => (tt, f s).
Definition gets {A} (f : state -> A) : M A := fun s => (f s, s).

Definition set_heap (h : gmap loc (gmap string entry)) (s : state) : state :=
  {| heap := h; getaddrinfo := getaddrinfo s; original := original s;
     runtime_hosts := runtime_hosts s; jobs := jobs s; logs := logs s; trace := trace s |}.
Definition set_getaddrinfo (r : resolver) (s : state) : state :=
  {| heap := heap s; getaddrinfo := r; original := original s;
     runtime_hosts := runtime_hosts s; jobs := jobs s; logs := logs s; trace := trace s |}.
Definition set_original (r : resolver) (s : state) : state :=
  {| heap := heap s; getaddrinfo := getaddrinfo s; original := r;
     runtime_hosts := runtime_hosts s; jobs := jobs s; logs := logs s; trace := trace s |}.
Definition set_runtime_hosts (l : loc) (s : state) : state :=
  {| heap := heap s; getaddrinfo := getaddrinfo s; original := original s;
     runtime_hosts := l; jobs := jobs s; logs := logs s; trace := trace s |}.
Definition set_jobs (j : gset string) (s : state) : state :=
  {| heap := heap s; getaddrinfo := getaddrinfo s; original := original s;
     runtime_hosts := runtime_hosts s; jobs := j; logs := logs s; trace := trace s |}.
Definition add_log (e : log_entry) (s : state) : state :=
  {| heap := heap s; getaddrinfo := getaddrinfo s; original := original s;
     runtime_hosts := runtime_hosts s; jobs := jobs s; logs := logs s ++ [e]; trace := trace s |}.
Definition add_event (ev : net_event) (s : state) : state :=
  {| heap := heap s; getaddrinfo := getaddrinfo s; original := original s;
     runtime_hosts := runtime_hosts s; jobs := jobs s; logs := logs s; trace := trace s ++ [ev] |}.

(** [{}] and [{**a, **b}]: a new dict object. *)
Definition alloc (t : gmap string entry) : M loc :=
  fun s => let l := fresh (dom (heap s)) in (l, set_heap (<[l := t]> (heap s)) s).

Definition read (l : loc) : M (gmap string entry) :=
  gets (fun s => default ∅ (heap s !! l)).

Definition write (l : loc) (t : gmap string entry) : M unit :=
  modify (fun s => set_heap (<[l := t]> (heap s)) s).

Definition log (lv : level) (m : message) : M unit := modify (add_log (lv, m)).

Section Effects.
Context (E : env).

Definition requests_get (url : string) : M http_outcome :=
  fun s => (http_get E url, add_event (EvGet url) s).

Definition requests_head (url : string) : M http_outcome :=
  fun s => (http_head E url, add_event (EvHead url) s).

(** Calling the function value [r] as [getaddrinfo(host, port, *a)].
    The closures look the global [_ORIGINAL_GETADDRINFO] up at call time.
    [fuel] bounds the Python call depth: [None] is a call that does not
    return (RecursionError). *)
Fixpoint call_resolver (fuel : nat) (h : gmap loc (gmap string entry))
    (orig : resolver) (r : resolver) (host : string) (port : Z) (a : hints)
    : option gai_result :=
  match fuel with
  | O => None
  | S f =>
      match r with
      | Orig => Some (platform_getaddrinfo E host port a)
      | Patched l =>
          (* item = hosts.get(host.lower()); if item: ... *)
          match default ∅ (h !! l) !! lower host with
          | Some (ip, family) =>
              Some (GaiList [mkAddrinfo family SOCK_STREAM 0 EmptyString (SA2 ip port)])
          | None => call_resolver f h orig orig host port a
          end
      end
  end.

(** A name resolution made by any code of the process: [socket.getaddrinfo(...)]. *)
Definition resolve (fuel : nat) (s : state) (host : string) (port : Z) (a : hints)
    : option gai_result :=
  call_resolver fuel (heap s) (original s) (getaddrinfo s) host port a.

End Effects.

(* ------------------------------------------------------------------ *)
(** ** Plugin configuration dicts *)

(** The values a config dict holds: [None], booleans, ints and strings. *)
Inductive pyval : Type :=
| PyNone
| PyBool (b : bool)
| PyInt (z : Z)
| PyStr (s : string).

(** Python truthiness of a value ([bool(v)]). *)
Definition truthy (v : pyval) : bool :=
  match v with
  | PyNone => false
  | PyBool b => b
  | PyInt z => negb (z =? 0)
  | PyStr s => negb (String.eqb s EmptyString)
  end.

(** [Dict[str, Any]] *)
Definition pydict : Type := gmap string pyval.

(** [bool(d)] for a dict: false exactly for [{}]. *)
Definition dict_truthy (d : pydict) : bool := negb (bool_decide (d = ∅)).

(** [d.get(k, default)] *)
Definition dict_get (d : pydict) (k : string) (dflt : pyval) : pyval :=
  default dflt (d !! k).

(* ------------------------------------------------------------------ *)
(** ** First plugin: [src/github_tmdb_runtime_hosts/__init__.py] *)

Module V1.
Section V1.
Context (E : env).

Definition JOB_ID : string := "runtime_hosts_daily".
Definition URL_GITHUB520 : string := "https://raw.hellogithub.com/hosts".
Definition URL_TMDB_V4 : string :=
  "https://raw.githubusercontent.com/cnwikee/CheckTMDB/refs/heads/main/Tmdb_host_ipv4".
Definition URL_TMDB_V6 : string :=
  "https://raw.githubusercontent.com/cnwikee/CheckTMDB/refs/heads/main/Tmdb_host_ipv6".
Definition URL_PROBE : string := "https://raw.githubusercontent.com".

(** [_load_hosts(url)]: the dict [hosts] is filled in the [try] block and
    returned whether or not an exception was caught. *)
Definition _load_hosts (url : string) : M loc :=
  hosts ← alloc ∅;
  resp ← requests_get E url;
  match raise_for_status resp with
  | inl e => log ERROR (MsgFetchFailed url e);; mret hosts
  | inr text =>
      t ← read hosts;
      write hosts (parse_into E t text);;
      mret hosts
  end.

(** [_patch(hosts)]: [socket.getaddrinfo = _patched], a closure over [hosts]. *)
Definition _patch (hosts : loc) : M unit := modify (set_getaddrinfo (Patched hosts)).

(** [_probe_github()] *)
Definition _probe_github : M bool :=
  resp ← requests_head E URL_PROBE;
  match raise_for_status resp with
  | inl e => log WARNING (MsgRawDown e);; mret false
  | inr _ => log INFO MsgRawOk;; mret true
  end.

(** [_update_all()] *)
Definition _update_all : M unit :=
  github_hosts ← _load_hosts URL_GITHUB520;
  g ← read github_hosts;
  if decide (g = ∅) then log ERROR MsgPrimaryEmpty else
  _patch github_hosts;;
  ok ← _probe_github;
  if negb ok then log ERROR MsgGateClosed else
  tmdb_hosts ← _load_hosts URL_TMDB_V4;
  v6 ← _load_hosts URL_TMDB_V6;
  t4 ← read tmdb_hosts;
  t6 ← read v6;
  write tmdb_hosts (dict_merge t4 t6);;          (* tmdb_hosts.update(...) *)
  g ← read github_hosts;
  t ← read tmdb_hosts;
  write github_hosts (dict_merge g t);;          (* github_hosts.update(tmdb_hosts) *)
  _patch github_hosts;;
  g' ← read github_hosts;
  log INFO (MsgMerged (size g')).

(** [self.scheduler.remove_job(id)]: APScheduler raises [JobLookupError]
    (returned here as [true]) when no job has that id. *)
Definition scheduler_remove_job (id : string) : M bool :=
  fun s => if decide (id ∈ jobs s) then (false, set_jobs (jobs s ∖ {[id]}) s) else (true, s).

Definition scheduler_add_job (id : string) : M unit :=
  modify (fun s => set_jobs ({[id]} ∪ jobs s) s).

(** [stop_service()]: the exception is swallowed. *)
Definition stop_service : M unit :=
  _ ← scheduler_remove_job JOB_ID; mret tt.

Definition _register_job : M unit :=
  stop_service;; scheduler_add_job JOB_ID.

Definition _enable : M unit :=
  _update_all;; _register_job;; log INFO MsgEnabled.

(** [_disable()] *)
Definition _disable : M unit :=
  stop_service;;
  o ← gets original;
  modify (set_getaddrinfo o);;                   (* socket.getaddrinfo = _ORIGINAL_GETADDRINFO *)
  rh ← gets runtime_hosts;
  write rh ∅;;                                   (* _RUNTIME_HOSTS.clear() *)
  log INFO MsgDisabled.

(** [init_plugin(config)] with [enabled = bool(config and config.get("enable"))]. *)
Definition init_plugin (enabled : bool) : M unit :=
  if enabled then _enable else _disable.

(** [enabled = bool(config and config.get("enable"))] *)
Definition enabled_of (config : option pydict) : bool :=
  match config with
  | None => false
  | Some d => if dict_truthy d then truthy (dict_get d "enable" PyNone) else false
  end.

(** [init_plugin(config)] with the config dict as passed in. *)
Definition init_plugin_config (config : option pydict) : M unit :=
  init_plugin (enabled_of config).

(** [get_state()]: [bool(self.scheduler.get_job("runtime_hosts_daily"))]. *)
Definition get_state : M bool :=
  gets (fun s => bool_decide (JOB_ID ∈ jobs s)).

End V1.
End V1.

(* ------------------------------------------------------------------ *)
(** ** Second plugin: [src/plugins.v2/tmdb_runtime_hosts/__init__.py] *)

Module V2.

(** [self.config]; every key of [DEFAULT_CONFIG] is assumed present. *)
Record config : Type := mkConfig {
  enable : bool; update_hour : Z; github_url : string;
  tmdb_ipv4_url : string; tmdb_ipv6_url : string; probe_url : string }.

Definition DEFAULT_CONFIG : config :=
  {| enable := true; update_hour := 4;
     github_url := "https://raw.hellogithub.com/hosts";
     tmdb_ipv4_url := "https://raw.githubusercontent.com/cnwikee/CheckTMDB/main/Tmdb_host_ipv4";
     tmdb_ipv6_url := "https://raw.githubusercontent.com/cnwikee/CheckTMDB/main/Tmdb_host_ipv6";
     probe_url := "https://api.github.com" |}.

Definition JOB_ID : string := "runtime_hosts_daily".

Section V2.
Context (E : env).

(** [_load_hosts(url)]: on an exception a new empty dict is returned. *)
Definition _load_hosts (url : string) : M loc :=
  hosts ← alloc ∅;
  resp ← requests_get E url;
  match raise_for_status resp with
  | inl e => log ERROR (MsgFetchFailed url e);; alloc ∅
  | inr text =>
      t ← read hosts;
      write hosts (parse_into E t text);;
      t' ← read hosts;
      log INFO (MsgLoaded (size t') url);;
      mret hosts
  end.

(** [_patch_dns(hosts)] *)
Definition _patch_dns (hosts : loc) : M unit :=
  modify (set_getaddrinfo (Patched hosts));; log INFO MsgPatched.

(** [_probe_connectivity(url)] *)
Definition _probe_connectivity (url : string) : M bool :=
  resp ← requests_head E url;
  match raise_for_status resp with
  | inl e => log WARNING (MsgProbeFailed url e);; mret false
  | inr _ => log INFO (MsgProbeOk url);; mret true
  end.

(** [_update_all()] *)
Definition _update_all (cfg : config) : M unit :=
  log INFO MsgUpdateStart;;
  github_hosts ← _load_hosts (github_url cfg);
  g ← read github_hosts;
  if decide (g = ∅) then log ERROR MsgPrimaryEmpty else
  _patch_dns github_hosts;;
  ok ← _probe_connectivity (probe_url cfg);
  if negb ok then log ERROR MsgGateClosed else
  tmdb_hosts ← _load_hosts (tmdb_ipv4_url cfg);
  v6 ← _load_hosts (tmdb_ipv6_url cfg);
  t4 ← read tmdb_hosts;
  t6 ← read v6;
  write tmdb_hosts (dict_merge t4 t6);;          (* tmdb_hosts.update(...) *)
  g' ← read github_hosts;
  t ← read tmdb_hosts;
  combined_hosts ← alloc (dict_merge g' t);      (* {**github_hosts, **tmdb_hosts} *)
  log INFO (MsgMerged (size (dict_merge g' t)));;
  _patch_dns combined_hosts;;
  modify (set_runtime_hosts combined_hosts);;    (* _RUNTIME_HOSTS = combined_hosts *)
  log INFO MsgUpdateDone.

(** [moviepilot.core.scheduler.remove_job] / [add_job] (outside this
    repository): removal of an absent id is taken to be harmless. *)
Definition remove_job (id : string) : M unit :=
  modify (fun s => set_jobs (jobs s ∖ {[id]}) s).

Definition add_job (id : string) : M unit :=
  modify (fun s => set_jobs ({[id]} ∪ jobs s) s).

(** [_enable()] *)
Definition _enable (cfg : config) : M unit :=
  _update_all cfg;;
  r ← gets getaddrinfo;
  modify (set_original r);;                      (* _ORIGINAL_GETADDRINFO = socket.getaddrinfo *)
  log INFO MsgEnabled.

(** [_disable()] *)
Definition _disable : M unit :=
  o ← gets original;
  modify (set_getaddrinfo o);;                   (* socket.getaddrinfo = _ORIGINAL_GETADDRINFO *)
  rh ← gets runtime_hosts;
  write rh ∅;;                                   (* _RUNTIME_HOSTS.clear() *)
  log INFO MsgDisabled.

Definition _register_job (cfg : config) : M unit :=
  remove_job JOB_ID;;
  if enable cfg then add_job JOB_ID;; log INFO (MsgJobRegistered (update_hour cfg))
  else mret tt.

(** [self.config = config or self.DEFAULT_CONFIG], for a config given as
    a record ([None] stands for a missing config). *)
Definition self_config (c : option config) : config := default DEFAULT_CONFIG c.

(** [init_plugin(config)]; it returns [None]. *)
Definition init_plugin (c : option config) : M unit :=
  let cfg := self_config c in
  (if enable cfg then _enable cfg else _disable);;
  _register_job cfg;;
  log INFO MsgInitDone.

Definition stop_plugin : M unit :=
  _disable;; remove_job JOB_ID;; log INFO MsgStopped.

(** [DEFAULT_CONFIG] as the dict it is in the source. *)
Definition config_dict (c : config) : pydict :=
  {[ "enable" := PyBool (enable c); "update_hour" := PyInt (update_hour c);
     "github_url" := PyStr (github_url c); "tmdb_ipv4_url" := PyStr (tmdb_ipv4_url c);
     "tmdb_ipv6_url" := PyStr (tmdb_ipv6_url c); "probe_url" := PyStr (probe_url c) ]}.

(** [self.config = config or self.DEFAULT_CONFIG] *)
Definition effective_config (config : option pydict) : pydict :=
  match config with
  | Some d => if dict_truthy d then d else config_dict DEFAULT_CONFIG
  | None => config_dict DEFAULT_CONFIG
  end.

(** [get_state()]: [bool(self.config.get("enable", True))], the same test
    [init_plugin] and [_register_job] make. *)
Definition get_state (self_config : pydict) : bool :=
  truthy (dict_get self_config "enable" (PyBool true)).

End V2.
End V2.

(* ------------------------------------------------------------------ *)
(** ** Derived views used in the statements *)

(** The table [_load_hosts(url)] fills in: the parse of the body on a
    response that [raise_for_status] lets through, nothing otherwise. *)
Definition fetch_table (E : env) (url : string) : gmap string entry :=
  match raise_for_status (http_get E url) with
  | inl _ => ∅
  | inr text => parse_hosts E text
  end.

(** What the probe helpers return for [url]. *)
Definition probe_ok (E : env) (url : string) : bool :=
  match raise_for_status (http_head E url) with
  | inl _ => false
  | inr _ => true
  end.

(** The table a resolver value consults, if it is a patched closure. *)
Definition consulted (s : state) : option (gmap string entry) :=
  match getaddrinfo s with
  | Orig => None
  | Patched l => heap s !! l
  end.

(** The two plugins, for statements about both. *)
Inductive plugin : Type :=
| PluginV1
| PluginV2 (cfg : V2.config).

Definition update_all (E : env) (p : plugin) : M unit :=
  match p with PluginV1 => V1._update_all E | PluginV2 cfg => V2._update_all E cfg end.

Definition primary_url (p : plugin) : string :=
  match p with PluginV1 => V1.URL_GITHUB520 | PluginV2 cfg => V2.github_url cfg end.

Definition probe_target (p : plugin) : string :=
  match p with PluginV1 => V1.URL_PROBE | PluginV2 cfg => V2.probe_url cfg end.

Definition secondary_urls (p : plugin) : list string :=
  match p with
  | PluginV1 => [V1.URL_TMDB_V4; V1.URL_TMDB_V6]
  | PluginV2 cfg => [V2.tmdb_ipv4_url cfg; V2.tmdb_ipv6_url cfg]
  end.

(** Every dict object alive in [h] still holds the same table in [h']. *)
Definition heap_ext (h h' : gmap loc (gmap string entry)) : Prop :=
  forall k, k ∈ dom h -> h' !! k = h !! k.

(** A step that only allocates dicts and leaves the globals alone. *)
Definition preserves (s s' : state) : Prop :=
  heap_ext (heap s) (heap s') /\ getaddrinfo s' = getaddrinfo s /\
  original s' = original s /\ runtime_hosts s' = runtime_hosts s /\ jobs s' = jobs s.

(** [l, s' = _load_hosts(url)] run from [s]: a new dict holding [fetch_table url]. *)
Definition loaded (E : env) (url : string) (s : state) (l : loc) (s' : state) : Prop :=
  (l ∉ dom (heap s)) /\ heap s' !! l = Some (fetch_table E url) /\
  trace s' = trace s ++ [EvGet url] /\ preserves s s'.

(** The first non-whitespace character of a line. *)
Definition first_nonspace (s : string) : option ascii :=
  match lstrip s with String c _ => Some c | EmptyString => None end.

(** The per-line rule of the hosts format in the words of the spec: blank
    lines and lines whose first non-whitespace character is '#' are
    ignored; otherwise a line with at least two whitespace-delimited
    tokens whose first token is an IP literal gives the entry keyed by the
    lowercased last token, with the first token as address and the family
    IPv6 exactly when the address contains ':'. *)
Definition spec_line (E : env) (line : string) : option (string * entry) :=
  match first_nonspace line with
  | None => None
  | Some c =>
      if Ascii.eqb c HASH then None else
      match split line with
      | ip :: host0 :: rest =>
          if ip_address_ok E ip
          then Some (lower (List.last (host0 :: rest) EmptyString),
                     (ip, if contains_colon ip then AF_INET6 else AF_INET))
          else None
      | _ => None
      end
  end.

(** Two states that differ at most in their logs. *)
Definition same_but_logs (s1 s2 : state) : Prop :=
  heap s1 = heap s2 /\ getaddrinfo s1 = getaddrinfo s2 /\ original s1 = original s2 /\
  runtime_hosts s1 = runtime_hosts s2 /\ jobs s1 = jobs s2 /\ trace s1 = trace s2.

(** The requests one run of [_update_all] issues, read off its control
    flow: the primary GET; then, when the primary table is non-empty, the
    probe HEAD; then, when the probe passes, the two secondary GETs. *)
Definition update_requests (E : env) (p : plugin) : list net_event :=
  EvGet (primary_url p) ::
  if bool_decide (fetch_table E (primary_url p) = ∅) then []
  else EvHead (probe_target p) ::
       if probe_ok E (probe_target p) then map EvGet (secondary_urls p) else [].

(** States the first plugin can bring the process to: the module as
    loaded, then any sequence of calls of its entry points (the daily job
    runs [_update_all]), each against any network. *)
Inductive V1_reachable : state -> Prop :=
| V1r_load : V1_reachable module_load
| V1r_init E c s : V1_reachable s -> V1_reachable (snd (V1.init_plugin_config E c s))
| V1r_update E s : V1_reachable s -> V1_reachable (snd (V1._update_all E s))
| V1r_enable E s : V1_reachable s -> V1_reachable (snd (V1._enable E s))
| V1r_disable s : V1_reachable s -> V1_reachable (snd (V1._disable s))
| V1r_register s : V1_reachable s -> V1_reachable (snd (V1._register_job s))
| V1r_stop s : V1_reachable s -> V1_reachable (snd (V1.stop_service s)).

(** A string with no whitespace character. *)
Definition no_space (s : string) : bool :=
  forallb (fun c => negb (is_space c)) (list_ascii_of_string s).

(** What a parsed line stores. *)
Definition entry_shape (E : env) (k : string) (v : entry) : Prop :=
  k <> EmptyString /\ no_space k = true /\ lower k = k /\
  v.1 <> EmptyString /\ no_space v.1 = true /\ ip_address_ok E v.1 = true /\
  v.2 = (if contains_colon v.1 then AF_INET6 else AF_INET).

(* ------------------------------------------------------------------ *)
(** ** A concrete environment, for the examples *)

(** [s.split(sep)] *)
Fixpoint split_on (sep : ascii) (s : string) : list string :=
  match s with
  | EmptyString => [EmptyString]
  | String c r =>
      let rest := split_on sep r in
      if Ascii.eqb c sep then EmptyString :: rest
      else match rest with
           | x :: xs => String c x :: xs
           | [] => [String c EmptyString]
           end
  end.

Definition is_digit (c : ascii) : bool :=
  let n := nat_of_ascii c in ((48 <=? n) && (n <=? 57))%nat.

Fixpoint digits_value (s : string) (acc : nat) : nat :=
  match s with
  | EmptyString => acc
  | String c r => digits_value r (acc * 10 + (nat_of_ascii c - 48))
  end.

Fixpoint all_digits (s : string) : bool :=
  match s with
  | EmptyString => true
  | String c r => is_digit c && all_digits r
  end.

(** An octet of [ipaddress.IPv4Address]: 1-3 decimal digits, no leading
    zero, at most 255. *)
Definition octet_ok (p : string) : bool :=
  let n := String.length p in
  ((1 <=? n) && (n <=? 3))%nat && all_digits p &&
  (match p with String c (String _ _) => negb (Ascii.eqb c (ascii_of_nat 48)) | _ => true end) &&
  (digits_value p 0 <=? 255)%nat.

(** Dotted-quad IPv4 literals. *)
Definition ipv4_ok (s : string) : bool :=
  let parts := split_on (ascii_of_nat 46) s in
  (List.length parts =? 4)%nat && forallb octet_ok parts.

Definition demo_primary : string :=
  "# GitHub520 Host Start
140.82.112.3                  github.com
185.199.108.133               raw.githubusercontent.com
".

Definition demo_tmdb_v4 : string := "104.244.42.1 api.themoviedb.org".

(** A network where the primary and IPv4 secondary sources answer with the
    documents above, every other GET gets an empty 200 body and HEAD
    requests get [head]; [ip_address] accepts the IPv4 literals and the
    platform resolver answers every name with one fixed address. *)
Definition demo_env (head : http_outcome) : env :=
  {| ip_address_ok := ipv4_ok;
     platform_getaddrinfo := fun _ port _ =>
       GaiList [mkAddrinfo AF_INET SOCK_STREAM 6 EmptyString (SA2 "93.184.216.34" port)];
     http_get := fun u =>
       if String.eqb u V1.URL_GITHUB520 then Response 200 demo_primary
       else if String.eqb u V1.URL_TMDB_V4 || String.eqb u (V2.tmdb_ipv4_url V2.DEFAULT_CONFIG)
       then Response 200 demo_tmdb_v4
       else Response 200 EmptyString;
     http_head := fun _ => head |}.

Definition net_up : env := demo_env (Response 200 EmptyString).
Definition net_probe_down : env := demo_env (Raised Timeout).

(** A server answering every GET with status 300 and a hosts body. *)
Definition status300_env : env :=
  {| ip_address_ok := ipv4_ok;
     platform_getaddrinfo := fun _ _ _ => GaiRaise "gaierror";
     http_get := fun _ => Response 300 "1.1.1.1 a";
     http_head := fun _ => Response 200 EmptyString |}.

(** Every GET answers 200 with a body holding only a comment. *)
Definition net_primary_empty : env :=
  {| ip_address_ok := ipv4_ok;
     platform_getaddrinfo := platform_getaddrinfo net_up;
     http_get := fun _ => Response 200 "# nothing here";
     http_head := http_head net_up |}.

Definition no_hints : hints := mkHints 0 0 0 0.
Definition dgram_hints : hints := mkHints AF_INET6 SOCK_DGRAM 17 0.

(* ------------------------------------------------------------------ *)
(** ** Run lemmas *)

Ltac run_unfold :=
  cbv [mbind mret M_bind M_ret modify gets alloc read write log
       requests_get requests_head] in *.


Lemma heap_ext_refl h : heap_ext h h.
Proof. by intros k _. Qed.

Lemma heap_ext_trans h1 h2 h3 :
  heap_ext h1 h2 -> heap_ext h2 h3 -> heap_ext h1 h3.
Proof.
  intros H12 H23 k Hk. rewrite <- (H12 k Hk). apply H23.
  apply elem_of_dom. rewrite (H12 k Hk). by apply elem_of_dom.
Qed.

Lemma heap_ext_insert_fresh h l t :
  l ∉ dom h -> heap_ext h (<[l := t]> h).
Proof.
  intros Hl k Hk. rewrite lookup_insert_ne; [done|]. intros ->. done.
Qed.

Lemma preserves_trans s1 s2 s3 :
  preserves s1 s2 -> preserves s2 s3 -> preserves s1 s3.
Proof.
  intros (H1 & G1 & O1 & R1 & J1) (H2 & G2 & O2 & R2 & J2).
  split; [by eapply heap_ext_trans|]. repeat split; congruence.
Qed.

Lemma fresh_not_in (h : gmap loc (gmap string entry)) : fresh (dom h) ∉ dom h.
Proof. apply is_fresh. Qed.

Lemma V1_load_hosts_loaded E url s :
  let '(l, s') := V1._load_hosts E url s in loaded E url s l s'.
Proof.
  unfold V1._load_hosts, loaded, preserves, fetch_table. run_unfold. cbn.
  pose proof (fresh_not_in (heap s)) as Hf.
  destruct (raise_for_status (http_get E url)) as [e|text]; cbn.
  - rewrite lookup_insert_eq. repeat split; auto using heap_ext_insert_fresh.
  - rewrite !lookup_insert_eq, insert_insert_eq. repeat split; auto using heap_ext_insert_fresh.
Qed.

Lemma V2_load_hosts_loaded E url s :
  let '(l, s') := V2._load_hosts E url s in loaded E url s l s'.
Proof.
  unfold V2._load_hosts, loaded, preserves, fetch_table. run_unfold. cbn.
  pose proof (fresh_not_in (heap s)) as Hf.
  destruct (raise_for_status (http_get E url)) as [e|text]; cbn.
  - set (l1 := fresh (dom (heap s))) in *.
    set (h1 := <[l1 := ∅]> (heap s)).
    pose proof (fresh_not_in h1) as Hf2.
    rewrite lookup_insert_eq. split.
    + intros Hin. apply Hf2. unfold h1. rewrite dom_insert_L. set_solver.
    + repeat split; auto.
      eapply heap_ext_trans; apply heap_ext_insert_fresh; [done|].
      exact Hf2.
  - rewrite !lookup_insert_eq, insert_insert_eq. repeat split; auto using heap_ext_insert_fresh.
Qed.

Lemma V1_update_all_gate E s :
  fetch_table E V1.URL_GITHUB520 ≠ ∅ -> probe_ok E V1.URL_PROBE = false ->
  let s' := snd (V1._update_all E s) in
  trace s' = trace s ++ [EvGet V1.URL_GITHUB520; EvHead V1.URL_PROBE] /\
  consulted s' = Some (fetch_table E V1.URL_GITHUB520) /\
  heap_ext (heap s) (heap s') /\ original s' = original s /\
  runtime_hosts s' = runtime_hosts s /\ jobs s' = jobs s.
Proof.
  intros Hne Hprobe. unfold V1._update_all. run_unfold.
  pose proof (V1_load_hosts_loaded E V1.URL_GITHUB520 s) as HL.
  destruct (V1._load_hosts E V1.URL_GITHUB520 s) as [gh s1].
  destruct HL as (Hfresh & Hgh & Htr & Hp).
  cbn. rewrite Hgh. cbn. destruct (decide _); [done|].
  unfold V1._patch, V1._probe_github, probe_ok in *. run_unfold. cbn.
  destruct (raise_for_status (http_head E V1.URL_PROBE)); [|done]. cbn.
  destruct Hp as (Hh & Hg & Ho & Hr & Hj). cbn in *.
  split; [rewrite Htr, <- app_assoc; done|].
  split; [unfold consulted; cbn; exact Hgh|].
  repeat split; first [exact Hh | congruence].
Qed.

Lemma V2_update_all_gate E cfg s :
  fetch_table E (V2.github_url cfg) ≠ ∅ -> probe_ok E (V2.probe_url cfg) = false ->
  let s' := snd (V2._update_all E cfg s) in
  trace s' = trace s ++ [EvGet (V2.github_url cfg); EvHead (V2.probe_url cfg)] /\
  consulted s' = Some (fetch_table E (V2.github_url cfg)) /\
  heap_ext (heap s) (heap s') /\ original s' = original s /\
  runtime_hosts s' = runtime_hosts s /\ jobs s' = jobs s.
Proof.
  intros Hne Hprobe. unfold V2._update_all. run_unfold. cbn.
  set (s0 := add_log _ s).
  pose proof (V2_load_hosts_loaded E (V2.github_url cfg) s0) as HL.
  destruct (V2._load_hosts E (V2.github_url cfg) s0) as [gh s1].
  destruct HL as (Hfresh & Hgh & Htr & Hp).
  cbn. rewrite Hgh. cbn. destruct (decide _); [done|].
  unfold V2._patch_dns, V2._probe_connectivity, probe_ok in *. run_unfold. cbn.
  destruct (raise_for_status (http_head E (V2.probe_url cfg))); [|done]. cbn.
  destruct Hp as (Hh & Hg & Ho & Hr & Hj). cbn in *.
  split; [rewrite Htr, <- app_assoc; done|].
  split; [unfold consulted; cbn; exact Hgh|].
  repeat split; first [exact Hh | congruence].
Qed.

Lemma heap_ext_dom h h' k : heap_ext h h' -> k ∈ dom h -> k ∈ dom h'.
Proof. intros H Hk. apply elem_of_dom. rewrite (H k Hk). by apply elem_of_dom. Qed.

Lemma lookup_some_dom (h : gmap loc (gmap string entry)) k t : h !! k = Some t -> k ∈ dom h.
Proof. intros H. apply elem_of_dom. by exists t. Qed.

Lemma V1_update_all_success E s :
  fetch_table E V1.URL_GITHUB520 ≠ ∅ -> probe_ok E V1.URL_PROBE = true ->
  let s' := snd (V1._update_all E s) in
  let P := fetch_table E V1.URL_GITHUB520 in
  let S := dict_merge (fetch_table E V1.URL_TMDB_V4) (fetch_table E V1.URL_TMDB_V6) in
  trace s' = trace s ++ [EvGet V1.URL_GITHUB520; EvHead V1.URL_PROBE;
                         EvGet V1.URL_TMDB_V4; EvGet V1.URL_TMDB_V6] /\
  exists gh t4,
    (gh ∉ dom (heap s)) /\ (t4 ∉ dom (heap s)) /\ gh ≠ t4 /\
    getaddrinfo s' = Patched gh /\
    heap s' !! gh = Some (dict_merge P S) /\ heap s' !! t4 = Some S /\
    heap_ext (heap s) (heap s') /\
    original s' = original s /\ runtime_hosts s' = runtime_hosts s /\ jobs s' = jobs s.
Proof.
  intros Hne Hprobe. unfold V1._update_all. run_unfold.
  pose proof (V1_load_hosts_loaded E V1.URL_GITHUB520 s) as HL.
  destruct (V1._load_hosts E V1.URL_GITHUB520 s) as [gh s1].
  destruct HL as (Hf1 & Hgh & Htr1 & He1 & Hg1 & Ho1 & Hr1 & Hj1).
  cbn. rewrite Hgh. cbn. destruct (decide _); [done|].
  unfold V1._patch, V1._probe_github, probe_ok in *. run_unfold. cbn.
  destruct (raise_for_status (http_head E V1.URL_PROBE)); [done|]. cbn.
  set (s3 := add_log _ _).
  pose proof (V1_load_hosts_loaded E V1.URL_TMDB_V4 s3) as HL.
  destruct (V1._load_hosts E V1.URL_TMDB_V4 s3) as [t4 s4].
  destruct HL as (Hf4 & Ht4 & Htr4 & He4 & Hg4 & Ho4 & Hr4 & Hj4).
  pose proof (V1_load_hosts_loaded E V1.URL_TMDB_V6 s4) as HL.
  destruct (V1._load_hosts E V1.URL_TMDB_V6 s4) as [v6 s5].
  destruct HL as (Hf6 & Hv6 & Htr6 & He6 & Hg6 & Ho6 & Hr6 & Hj6).
  cbn.
  assert (Hgh3 : gh ∈ dom (heap s3)) by (apply (lookup_some_dom _ _ _ Hgh)).
  assert (Hgh5 : heap s5 !! gh = Some (fetch_table E V1.URL_GITHUB520)).
  { rewrite (He6 gh); [rewrite (He4 gh); [exact Hgh|exact Hgh3]|].
    by apply (heap_ext_dom (heap s3)). }
  assert (Ht45 : heap s5 !! t4 = Some (fetch_table E V1.URL_TMDB_V4)).
  { rewrite (He6 t4); [exact Ht4|]. by apply (lookup_some_dom _ _ _ Ht4). }
  assert (Hne4 : gh ≠ t4).
  { intros ->. apply Hf4. exact Hgh3. }
  rewrite Ht45, Hv6. cbn.
  rewrite lookup_insert_ne by done. rewrite Hgh5. cbn.
  rewrite lookup_insert_eq. cbn.
  split.
  { rewrite Htr6, Htr4. cbn. rewrite Htr1. rewrite <- !app_assoc. done. }
  exists gh, t4.
  assert (Hsub : forall k, k ∈ dom (heap s) -> k ∈ dom (heap s3)).
  { intros k Hk. apply (heap_ext_dom (heap s)); [exact He1|exact Hk]. }
  repeat split.
  - intros Hin. apply Hf1. exact Hin.
  - intros Hin. apply Hf4. by apply Hsub.
  - exact Hne4.
  - rewrite lookup_insert_eq. reflexivity.
  - rewrite lookup_insert_ne by done. rewrite lookup_insert_eq. reflexivity.
  - intros k Hk.
    assert (k ≠ gh) by (intros ->; contradiction).
    assert (k ≠ t4) by (intros ->; apply Hf4; by apply Hsub).
    rewrite !lookup_insert_ne by done.
    rewrite (He6 k), (He4 k); [| by apply Hsub | by apply (heap_ext_dom (heap s3)), Hsub].
    cbn. apply He1. exact Hk.
  - cbn in *. congruence.
  - cbn in *. congruence.
  - cbn in *. congruence.
Qed.

Lemma V2_update_all_success E cfg s :
  fetch_table E (V2.github_url cfg) ≠ ∅ -> probe_ok E (V2.probe_url cfg) = true ->
  let s' := snd (V2._update_all E cfg s) in
  let P := fetch_table E (V2.github_url cfg) in
  let S := dict_merge (fetch_table E (V2.tmdb_ipv4_url cfg)) (fetch_table E (V2.tmdb_ipv6_url cfg)) in
  trace s' = trace s ++ [EvGet (V2.github_url cfg); EvHead (V2.probe_url cfg);
                         EvGet (V2.tmdb_ipv4_url cfg); EvGet (V2.tmdb_ipv6_url cfg)] /\
  exists gh t4 c,
    (gh ∉ dom (heap s)) /\ (t4 ∉ dom (heap s)) /\ (c ∉ dom (heap s)) /\
    gh ≠ t4 /\ c ≠ gh /\ c ≠ t4 /\
    getaddrinfo s' = Patched c /\ runtime_hosts s' = c /\
    heap s' !! gh = Some P /\ heap s' !! t4 = Some S /\
    heap s' !! c = Some (dict_merge P S) /\
    heap_ext (heap s) (heap s') /\
    original s' = original s /\ jobs s' = jobs s.
Proof.
  intros Hne Hprobe. unfold V2._update_all. run_unfold. cbn.
  set (s0 := add_log _ s).
  pose proof (V2_load_hosts_loaded E (V2.github_url cfg) s0) as HL.
  destruct (V2._load_hosts E (V2.github_url cfg) s0) as [gh s1].
  destruct HL as (Hf1 & Hgh & Htr1 & He1 & Hg1 & Ho1 & Hr1 & Hj1).
  cbn. rewrite Hgh. cbn. destruct (decide _); [done|].
  unfold V2._patch_dns, V2._probe_connectivity, probe_ok in *. run_unfold. cbn.
  destruct (raise_for_status (http_head E (V2.probe_url cfg))); [done|]. cbn.
  set (s3 := add_log _ _).
  pose proof (V2_load_hosts_loaded E (V2.tmdb_ipv4_url cfg) s3) as HL.
  destruct (V2._load_hosts E (V2.tmdb_ipv4_url cfg) s3) as [t4 s4].
  destruct HL as (Hf4 & Ht4 & Htr4 & He4 & Hg4 & Ho4 & Hr4 & Hj4).
  pose proof (V2_load_hosts_loaded E (V2.tmdb_ipv6_url cfg) s4) as HL.
  destruct (V2._load_hosts E (V2.tmdb_ipv6_url cfg) s4) as [v6 s5].
  destruct HL as (Hf6 & Hv6 & Htr6 & He6 & Hg6 & Ho6 & Hr6 & Hj6).
  cbn.
  assert (Hgh3 : gh ∈ dom (heap s3)) by (apply (lookup_some_dom _ _ _ Hgh)).
  assert (Hgh5 : heap s5 !! gh = Some (fetch_table E (V2.github_url cfg))).
  { rewrite (He6 gh); [rewrite (He4 gh); [exact Hgh|exact Hgh3]|].
    by apply (heap_ext_dom (heap s3)). }
  assert (Ht45 : heap s5 !! t4 = Some (fetch_table E (V2.tmdb_ipv4_url cfg))).
  { rewrite (He6 t4); [exact Ht4|]. by apply (lookup_some_dom _ _ _ Ht4). }
  assert (Hne4 : gh ≠ t4).
  { intros ->. apply Hf4. exact Hgh3. }
  rewrite Ht45, Hv6. cbn.
  rewrite lookup_insert_ne by done. rewrite Hgh5. cbn.
  rewrite lookup_insert_eq. cbn.
  set (h6 := <[t4 := _]> (heap s5)).
  set (c := fresh (dom h6)).
  assert (Hfc : c ∉ dom h6) by apply fresh_not_in.
  assert (Hgh6 : gh ∈ dom h6).
  { unfold h6. rewrite dom_insert_L. apply elem_of_union_r. by apply (lookup_some_dom _ _ _ Hgh5). }
  assert (Ht46 : t4 ∈ dom h6).
  { unfold h6. rewrite dom_insert_L. set_solver. }
  assert (Hsub : forall k, k ∈ dom (heap s) -> k ∈ dom (heap s3)).
  { intros k Hk. apply (heap_ext_dom (heap s0)); [exact He1|exact Hk]. }
  assert (Hsub5 : forall k, k ∈ dom (heap s) -> k ∈ dom (heap s5)).
  { intros k Hk. apply (heap_ext_dom (heap s4)); [exact He6|].
    apply (heap_ext_dom (heap s3)); [exact He4|]. by apply Hsub. }
  split.
  { rewrite Htr6, Htr4. cbn. rewrite Htr1. rewrite <- !app_assoc. done. }
  exists gh, t4, c.
  repeat split.
  - intros Hin. apply Hf1. exact Hin.
  - intros Hin. apply Hf4. by apply Hsub.
  - intros Hin. apply Hfc. unfold h6. rewrite dom_insert_L. apply elem_of_union_r.
    by apply Hsub5.
  - exact Hne4.
  - intros Heq. apply Hfc. rewrite Heq. exact Hgh6.
  - intros Heq. apply Hfc. rewrite Heq. exact Ht46.
  - assert (c ≠ gh) by (intros Heq; apply Hfc; rewrite Heq; exact Hgh6).
    rewrite lookup_insert_ne by done. unfold h6.
    rewrite lookup_insert_ne by done. exact Hgh5.
  - assert (c ≠ t4) by (intros Heq; apply Hfc; rewrite Heq; exact Ht46).
    rewrite lookup_insert_ne by done. unfold h6. rewrite lookup_insert_eq. reflexivity.
  - rewrite lookup_insert_eq. reflexivity.
  - intros k Hk.
    assert (k ≠ c) by (intros ->; apply Hfc; unfold h6; rewrite dom_insert_L;
                        apply elem_of_union_r; by apply Hsub5).
    assert (k ≠ t4) by (intros ->; apply Hf4; by apply Hsub).
    rewrite lookup_insert_ne by done. unfold h6. rewrite lookup_insert_ne by done.
    rewrite (He6 k), (He4 k); [| by apply Hsub | by apply (heap_ext_dom (heap s3)), Hsub].
    cbn. apply He1. exact Hk.
  - cbn in *. congruence.
  - cbn in *. congruence.
Qed.

Lemma V1_update_all_empty E s :
  fetch_table E V1.URL_GITHUB520 = ∅ ->
  let s' := snd (V1._update_all E s) in
  trace s' = trace s ++ [EvGet V1.URL_GITHUB520] /\ preserves s s' /\
  last (logs s') = Some (ERROR, MsgPrimaryEmpty).
Proof.
  intros He. unfold V1._update_all. run_unfold.
  pose proof (V1_load_hosts_loaded E V1.URL_GITHUB520 s) as HL.
  destruct (V1._load_hosts E V1.URL_GITHUB520 s) as [gh s1].
  destruct HL as (Hfresh & Hgh & Htr & Hp).
  cbn. rewrite Hgh. cbn. destruct (decide _) as [_|Hn]; [|done].
  cbn. split; [exact Htr|]. split; [exact Hp|]. by rewrite last_snoc.
Qed.

Lemma V2_update_all_empty E cfg s :
  fetch_table E (V2.github_url cfg) = ∅ ->
  let s' := snd (V2._update_all E cfg s) in
  trace s' = trace s ++ [EvGet (V2.github_url cfg)] /\ preserves s s' /\
  last (logs s') = Some (ERROR, MsgPrimaryEmpty).
Proof.
  intros He. unfold V2._update_all. run_unfold. cbn.
  set (s0 := add_log _ s).
  pose proof (V2_load_hosts_loaded E (V2.github_url cfg) s0) as HL.
  destruct (V2._load_hosts E (V2.github_url cfg) s0) as [gh s1].
  destruct HL as (Hfresh & Hgh & Htr & Hp).
  cbn. rewrite Hgh. cbn. destruct (decide _) as [_|Hn]; [|done].
  cbn. split; [exact Htr|]. split; [|by rewrite last_snoc].
  destruct Hp as (Hh & Hg & Ho & Hr & Hj). repeat split; try done.
Qed.


(* ------------------------------------------------------------------ *)
(** ** Lemmas on the string primitives *)

Lemma split_space_cons c r : is_space c = true -> split (String c r) = split r.
Proof.
  intros Hc. unfold split. cbn. destruct (split_aux r) as [tok toks].
  rewrite Hc. reflexivity.
Qed.

Lemma split_nonspace_cons c r :
  is_space c = false -> split (String c r) <> [].
Proof.
  intros Hc. unfold split. cbn. destruct (split_aux r) as [tok toks].
  rewrite Hc. discriminate.
Qed.

Lemma split_lstrip s : split (lstrip s) = split s.
Proof.
  induction s as [|c r IH]; [reflexivity|]. cbn.
  destruct (is_space c) eqn:Hc; [|reflexivity].
  rewrite IH. symmetry. by apply split_space_cons.
Qed.

Lemma split_aux_rstrip s : split_aux (rstrip s) = split_aux s.
Proof.
  induction s as [|c r IH]; [reflexivity|]. cbn.
  destruct (rstrip r) as [|c' r'] eqn:Hr.
  - cbn in IH. rewrite <- IH.
    destruct (is_space c) eqn:Hc; cbn; rewrite ?Hc; reflexivity.
  - cbn. cbn in IH. rewrite <- IH. reflexivity.
Qed.

Lemma split_strip s : split (strip s) = split s.
Proof.
  unfold strip. rewrite <- (split_lstrip s). unfold split.
  rewrite split_aux_rstrip. reflexivity.
Qed.

Lemma lstrip_head s c r : lstrip s = String c r -> is_space c = false.
Proof.
  induction s as [|c0 r0 IH]; cbn; [discriminate|].
  destruct (is_space c0) eqn:Hc; [exact IH|].
  intros [= <- _]. exact Hc.
Qed.

Lemma rstrip_nonspace_cons c r :
  is_space c = false -> exists r', rstrip (String c r) = String c r'.
Proof.
  intros Hc. cbn. destruct (rstrip r) as [|c' r'].
  - rewrite Hc. eauto.
  - eauto.
Qed.

(** [strip] leaves the line empty, or starting at its first non-whitespace character. *)
Lemma strip_shape s :
  (first_nonspace s = None /\ strip s = EmptyString) \/
  (exists c r, first_nonspace s = Some c /\ strip s = String c r).
Proof.
  unfold first_nonspace, strip. destruct (lstrip s) as [|c r] eqn:Hl.
  - left. split; reflexivity.
  - right. destruct (rstrip_nonspace_cons c r (lstrip_head s c r Hl)) as [r' Hr'].
    exists c, r'. split; [reflexivity|exact Hr'].
Qed.

(** The loop body of [_load_hosts] is the spec's per-line rule. *)
Lemma parse_line_spec E line : parse_line E line = spec_line E line.
Proof.
  unfold parse_line, spec_line.
  destruct (strip_shape line) as [[Hf Hs] | (c & r & Hf & Hs)]; rewrite Hf, Hs; [reflexivity|].
  cbn [startswith_hash]. destruct (Ascii.eqb c HASH); [reflexivity|].
  rewrite <- Hs, split_strip. unfold _is_valid_ip.
  destruct (split line) as [|ip [|h rest]]; reflexivity.
Qed.

(** The dict built by a loop of [hosts[k] = v] over the lines. *)
Lemma fold_insert_lookup {A} (f : A -> option (string * entry)) (xs : list A)
    (m : gmap string entry) (k : string) :
  fold_left (fun h x => match f x with Some (k', e) => <[k' := e]> h | None => h end) xs m !! k =
  match last (filter (fun kv : string * entry => kv.1 = k) (omap f xs)) with
  | Some kv => Some kv.2
  | None => m !! k
  end.
Proof.
  induction xs as [|x xs IH] using rev_ind; [reflexivity|].
  rewrite fold_left_app. cbn [fold_left].
  rewrite omap_app. cbn [omap list_omap].
  destruct (f x) as [[k' e]|] eqn:Hfx.
  - rewrite filter_app, filter_cons, filter_nil.
    destruct (decide (k' = k)) as [->|Hne]; cbn [fst].
    + rewrite decide_True by reflexivity. rewrite last_snoc, lookup_insert_eq. reflexivity.
    + rewrite decide_False by done. rewrite app_nil_r, lookup_insert_ne by done. exact IH.
  - rewrite app_nil_r. exact IH.
Qed.

Lemma omap_parse_line E (xs : list string) :
  omap (parse_line E) xs = omap (spec_line E) xs.
Proof.
  induction xs as [|x xs IH]; [reflexivity|]. cbn.
  rewrite parse_line_spec, IH. reflexivity.
Qed.

(** A patched closure answers a name of its dict without a further call. *)
Lemma call_resolver_hit E fuel (h : gmap loc (gmap string entry)) orig l host port a ip fam :
  default ∅ (h !! l) !! lower host = Some (ip, fam) ->
  call_resolver E (S fuel) h orig (Patched l) host port a =
  Some (GaiList [mkAddrinfo fam SOCK_STREAM 0 EmptyString (SA2 ip port)]).
Proof. intros H. cbn [call_resolver]. rewrite H. reflexivity. Qed.

(** A miss calls the function held by [_ORIGINAL_GETADDRINFO]. *)
Lemma call_resolver_miss E fuel (h : gmap loc (gmap string entry)) orig l host port a :
  default ∅ (h !! l) !! lower host = None ->
  call_resolver E (S fuel) h orig (Patched l) host port a =
  call_resolver E fuel h orig orig host port a.
Proof. intros H. cbn [call_resolver]. rewrite H. reflexivity. Qed.

(** A closure that is its own [_ORIGINAL_GETADDRINFO] never returns on a miss. *)
Lemma call_resolver_self_loop E fuel (h : gmap loc (gmap string entry)) l host port a :
  default ∅ (h !! l) !! lower host = None ->
  call_resolver E fuel h (Patched l) (Patched l) host port a = None.
Proof.
  intros H. induction fuel as [|f IH]; [reflexivity|].
  rewrite call_resolver_miss by exact H. exact IH.
Qed.

(* ------------------------------------------------------------------ *)
(** ** The claims *)

(** C1 (gate honored). In a run of [_update_all] of either plugin where
    the primary table is non-empty (so it is activated) and the
    connectivity probe returns false, the only requests of the run are the
    primary GET and the probe (no secondary source is fetched), and at the
    end [socket.getaddrinfo] is a patched closure consulting exactly the
    primary table: the activation is kept. *)
Theorem C1_gate_honored (E : env) (p : plugin) (s : state) :
  fetch_table E (primary_url p) ≠ ∅ -> probe_ok E (probe_target p) = false ->
  let s' := snd (update_all E p s) in
  trace s' = trace s ++ [EvGet (primary_url p); EvHead (probe_target p)] /\
  consulted s' = Some (fetch_table E (primary_url p)).
Proof.
  intros Hne Hprobe. destruct p as [|cfg]; cbn in *.
  - destruct (V1_update_all_gate E s Hne Hprobe) as (Htr & Hc & _). auto.
  - destruct (V2_update_all_gate E cfg s Hne Hprobe) as (Htr & Hc & _). auto.
Qed.

Lemma C1_witness :
  fetch_table net_probe_down (primary_url PluginV1) ≠ ∅ /\
  probe_ok net_probe_down (probe_target PluginV1) = false /\
  (let s' := snd (update_all net_probe_down PluginV1 module_load) in
   trace s' = trace module_load ++
     [EvGet (primary_url PluginV1); EvHead (probe_target PluginV1)] /\
   consulted s' = Some (fetch_table net_probe_down (primary_url PluginV1))).
Proof.
  assert (Hne : fetch_table net_probe_down (primary_url PluginV1) ≠ ∅)
    by (intros H; vm_compute in H; discriminate H).
  assert (Hp : probe_ok net_probe_down (probe_target PluginV1) = false)
    by (vm_compute; reflexivity).
  split; [exact Hne|]. split; [exact Hp|].
  exact (C1_gate_honored net_probe_down PluginV1 module_load Hne Hp).
Defined.

(** C2 (parse, as amended). Each line of the body is handled by the
    spec's per-line rule [spec_line]: blank lines and lines whose first
    non-whitespace character is '#' give nothing; a line with at least two
    whitespace-delimited tokens whose first token is an IP literal gives
    the entry keyed by its lowercased last token, with the first token as
    address and family AF_INET6 exactly when the address contains ':';
    every other line gives nothing. The entries are stored one after the
    other, so the parsed table maps a hostname to the entry of the LAST
    line giving that hostname, and has no other keys. [parse_hosts] is a
    total function: no line makes it fail. *)
Theorem C2_parse_lines (E : env) (text line k : string) :
  parse_line E line = spec_line E line /\
  parse_hosts E text !! k =
    snd <$> last (filter (fun kv : string * entry => kv.1 = k)
                         (omap (spec_line E) (splitlines text))).
Proof.
  split; [apply parse_line_spec|].
  unfold parse_hosts, parse_into. rewrite fold_insert_lookup, omap_parse_line.
  destruct (last _) as [kv|]; reflexivity.
Qed.

(** C2 as stated fails: both lines are valid, the first one is keyed
    "a" with address 1.1.1.1, yet the parsed table maps "a" to 2.2.2.2,
    because the second line overwrote the first entry. *)
Lemma C2_duplicate_host_counterexample :
  splitlines "1.1.1.1 a
2.2.2.2 a" = ["1.1.1.1 a"; "2.2.2.2 a"] /\
  spec_line net_up "1.1.1.1 a" = Some ("a", ("1.1.1.1", AF_INET)) /\
  parse_hosts net_up "1.1.1.1 a
2.2.2.2 a" !! "a" = Some ("2.2.2.2", AF_INET) /\
  parse_hosts net_up "1.1.1.1 a
2.2.2.2 a" !! "a" <> Some ("1.1.1.1", AF_INET).
Proof.
  split; [vm_compute; reflexivity|].
  split; [vm_compute; reflexivity|].
  split; [vm_compute; reflexivity|].
  vm_compute. discriminate.
Qed.

(** C5 (empty primary aborts). When the primary table comes back empty,
    the run of either plugin changes neither [socket.getaddrinfo] nor
    [_ORIGINAL_GETADDRINFO], [_RUNTIME_HOSTS], the scheduler's jobs or any
    dict alive before the run; it logs the error [MsgPrimaryEmpty] last
    and issues exactly one request, the primary GET (no retry). *)
Theorem C5_primary_empty_aborts (E : env) (p : plugin) (s : state) :
  fetch_table E (primary_url p) = ∅ ->
  let s' := snd (update_all E p s) in
  preserves s s' /\
  trace s' = trace s ++ [EvGet (primary_url p)] /\
  last (logs s') = Some (ERROR, MsgPrimaryEmpty).
Proof.
  intros He. destruct p as [|cfg]; cbn in *.
  - destruct (V1_update_all_empty E s He) as (Htr & Hp & Hl). auto.
  - destruct (V2_update_all_empty E cfg s He) as (Htr & Hp & Hl). auto.
Qed.

Lemma C5_witness :
  fetch_table net_primary_empty (primary_url (PluginV2 V2.DEFAULT_CONFIG)) = ∅ /\
  (let s' := snd (update_all net_primary_empty (PluginV2 V2.DEFAULT_CONFIG) module_load) in
   preserves module_load s' /\
   trace s' = trace module_load ++ [EvGet (primary_url (PluginV2 V2.DEFAULT_CONFIG))] /\
   last (logs s') = Some (ERROR, MsgPrimaryEmpty)).
Proof.
  assert (He : fetch_table net_primary_empty (primary_url (PluginV2 V2.DEFAULT_CONFIG)) = ∅)
    by (vm_compute; reflexivity).
  split; [exact He|].
  exact (C5_primary_empty_aborts net_primary_empty (PluginV2 V2.DEFAULT_CONFIG) module_load He).
Defined.

(** C9 (shape of an answer). When [socket.getaddrinfo] is a patched
    closure whose dict has [host.lower()], the call returns exactly one
    tuple [(family, SOCK_STREAM, 0, "", (ip, port))] built from the stored
    entry, whatever family, type, protocol or flags the caller passed, and
    without calling any other resolver. *)
Theorem C9_hit_result_shape (E : env) (s : state) (l : loc) (t : gmap string entry)
    (host : string) (port : Z) (a : hints) (ip : string) (fam : Z) (fuel : nat) :
  getaddrinfo s = Patched l -> heap s !! l = Some t -> t !! lower host = Some (ip, fam) ->
  resolve E (S fuel) s host port a =
  Some (GaiList [mkAddrinfo fam SOCK_STREAM 0 EmptyString (SA2 ip port)]).
Proof.
  intros Hg Hh Ht. unfold resolve. rewrite Hg.
  apply call_resolver_hit. rewrite Hh. exact Ht.
Qed.

(** A datagram request for "GitHub.com" after a full run of the first
    plugin gets a SOCK_STREAM tuple. *)
Lemma C9_witness :
  let s := snd (V1._update_all net_up module_load) in
  getaddrinfo s = Patched 2%positive /\
  heap s !! 2%positive = Some (parse_hosts net_up demo_primary ∪ parse_hosts net_up demo_tmdb_v4) /\
  (parse_hosts net_up demo_primary ∪ parse_hosts net_up demo_tmdb_v4) !! lower "GitHub.com"
    = Some ("140.82.112.3", AF_INET) /\
  resolve net_up 1 s "GitHub.com" 443 dgram_hints =
    Some (GaiList [mkAddrinfo AF_INET SOCK_STREAM 0 EmptyString (SA2 "140.82.112.3" 443)]).
Proof.
  assert (Hg : getaddrinfo (snd (V1._update_all net_up module_load)) = Patched 2%positive)
    by (vm_compute; reflexivity).
  assert (Hh : heap (snd (V1._update_all net_up module_load)) !! 2%positive =
               Some (parse_hosts net_up demo_primary ∪ parse_hosts net_up demo_tmdb_v4))
    by (vm_compute; reflexivity).
  assert (Ht : (parse_hosts net_up demo_primary ∪ parse_hosts net_up demo_tmdb_v4)
                 !! lower "GitHub.com" = Some ("140.82.112.3", AF_INET))
    by (vm_compute; reflexivity).
  split; [exact Hg|]. split; [exact Hh|]. split; [exact Ht|].
  exact (C9_hit_result_shape net_up _ 2%positive _ "GitHub.com" 443 dgram_hints
           "140.82.112.3" AF_INET 0 Hg Hh Ht).
Defined.

(** C7 (fetch, as amended). [_load_hosts(url)] of either plugin always
    returns a dict and raises nothing. On a transport error or timeout,
    and on a 4xx or 5xx status (the ones [raise_for_status] rejects), it
    logs an error naming the URL and the cause and the dict is empty. On
    every other status, 2xx but also a 1xx or 3xx response handed back by
    requests, the dict is the parse of the body (the second plugin logs
    the count of records). *)
Theorem C7_load_hosts_outcomes (E : env) (url : string) (s : state) :
  (let '(l, s') := V1._load_hosts E url s in
   match http_get E url with
   | Raised e => heap s' !! l = Some ∅ /\ logs s' = logs s ++ [(ERROR, MsgFetchFailed url e)]
   | Response st body =>
       if (400 <=? st) && (st <? 600)
       then heap s' !! l = Some ∅ /\
            logs s' = logs s ++ [(ERROR, MsgFetchFailed url (HTTPError st))]
       else heap s' !! l = Some (parse_hosts E body) /\ logs s' = logs s
   end) /\
  (let '(l, s') := V2._load_hosts E url s in
   match http_get E url with
   | Raised e => heap s' !! l = Some ∅ /\ logs s' = logs s ++ [(ERROR, MsgFetchFailed url e)]
   | Response st body =>
       if (400 <=? st) && (st <? 600)
       then heap s' !! l = Some ∅ /\
            logs s' = logs s ++ [(ERROR, MsgFetchFailed url (HTTPError st))]
       else heap s' !! l = Some (parse_hosts E body) /\
            logs s' = logs s ++ [(INFO, MsgLoaded (size (parse_hosts E body)) url)]
   end).
Proof.
  unfold V1._load_hosts, V2._load_hosts. run_unfold. unfold raise_for_status.
  destruct (http_get E url) as [e|st body]; cbn.
  - split; rewrite lookup_insert_eq; auto.
  - destruct ((400 <=? st) && (st <? 600)); cbn.
    + split; rewrite lookup_insert_eq; auto.
    + rewrite !lookup_insert_eq. cbn. auto.
Qed.

(** C7 as stated fails: a 300 response (not 2xx) is parsed, not
    turned into an empty table, and nothing is logged. *)
Lemma C7_status300_counterexample :
  http_get status300_env V1.URL_GITHUB520 = Response 300 "1.1.1.1 a" /\
  (let '(l, s') := V1._load_hosts status300_env V1.URL_GITHUB520 module_load in
   heap s' !! l = Some {[ "a" := ("1.1.1.1", AF_INET) ]} /\ logs s' = []).
Proof. split; vm_compute; [reflexivity|]. split; reflexivity. Qed.

(** C8 (disable, as amended). [_disable()] is idempotent in both
    plugins: a second call leaves the state as the first one left it
    (only the log grows). After it, [socket.getaddrinfo] is the value of
    [_ORIGINAL_GETADDRINFO] and the dict bound to [_RUNTIME_HOSTS] is
    empty. The first plugin's [_disable] also removes the daily job, with
    the error for a missing job swallowed; the second plugin's [_disable]
    leaves the scheduler alone (its callers [stop_plugin] and
    [_register_job] remove the job). *)
Theorem C8_disable_idempotent (s : state) :
  (let s1 := snd (V1._disable s) in
   let s2 := snd (V1._disable s1) in
   same_but_logs s1 s2 /\ (V1.JOB_ID ∉ jobs s1) /\ getaddrinfo s1 = original s /\
   runtime_hosts s1 = runtime_hosts s /\ heap s1 !! runtime_hosts s = Some ∅) /\
  (let s1 := snd (V2._disable s) in
   let s2 := snd (V2._disable s1) in
   same_but_logs s1 s2 /\ jobs s1 = jobs s /\ getaddrinfo s1 = original s /\
   runtime_hosts s1 = runtime_hosts s /\ heap s1 !! runtime_hosts s = Some ∅).
Proof.
  unfold V1._disable, V2._disable, V1.stop_service, V1.scheduler_remove_job, same_but_logs.
  run_unfold. split.
  - destruct (decide (V1.JOB_ID ∈ jobs s)) as [Hin|Hout]; cbn.
    + rewrite decide_False by set_solver. cbn.
      rewrite insert_insert_eq, lookup_insert_eq. repeat split; set_solver.
    + rewrite decide_False by exact Hout. cbn.
      rewrite insert_insert_eq, lookup_insert_eq. repeat split; exact Hout.
  - cbn. rewrite insert_insert_eq, lookup_insert_eq. repeat split.
Qed.

(** C8 as stated fails for the second plugin: with the daily job
    registered, [_disable()] leaves it registered. *)
Lemma C8_v2_job_kept_counterexample :
  V2.JOB_ID ∈ jobs (set_jobs {[V2.JOB_ID]} module_load) /\
  V2.JOB_ID ∈ jobs (snd (V2._disable (set_jobs {[V2.JOB_ID]} module_load))).
Proof. cbn. split; set_solver. Qed.

Lemma V2_enable_net_up_globals :
  let s1 := snd (V2._enable net_up V2.DEFAULT_CONFIG module_load) in
  getaddrinfo s1 = Patched 5%positive /\ original s1 = Patched 5%positive /\
  runtime_hosts s1 = 5%positive.
Proof. vm_compute. repeat split. Qed.

(** C4 (miss delegates to the module-load original): fails in the
    second plugin. [_enable()] runs [_update_all()], which installs a
    patched closure, and then executes [_ORIGINAL_GETADDRINFO =
    socket.getaddrinfo] (commented "save the original resolver"), so the
    global now holds that same closure. A name missing from its table
    then makes the closure call itself forever: no fuel gives an answer.
    In the first plugin, after the same [_enable()], a miss returns the
    platform resolver's own result. *)
Theorem C4_v2_miss_self_recursion :
  let s1 := snd (V2._enable net_up V2.DEFAULT_CONFIG module_load) in
  original module_load = Orig /\
  original s1 = getaddrinfo s1 /\ original s1 <> Orig /\
  (forall fuel, resolve net_up fuel s1 "example.org" 443 no_hints = None) /\
  resolve net_up 2 (snd (V1._enable net_up module_load)) "example.org" 443 no_hints =
    Some (platform_getaddrinfo net_up "example.org" 443 no_hints).
Proof.
  cbv zeta. destruct V2_enable_net_up_globals as (Hg & Ho & _).
  split; [reflexivity|]. split; [congruence|]. split; [rewrite Ho; discriminate|].
  split; [|vm_compute; reflexivity].
  intros fuel. unfold resolve. rewrite Hg, Ho.
  apply call_resolver_self_loop. vm_compute. reflexivity.
Qed.

(** C6 (disable restores the module-load original): fails in the second
    plugin. After [_enable()] then [_disable()] from the freshly loaded
    module, [socket.getaddrinfo] is the patched closure that [_enable]
    stored in [_ORIGINAL_GETADDRINFO], not the platform function, and
    since [_disable] also cleared the dict that closure consults, every
    name now makes it call itself forever. The first plugin's cycle
    restores the platform function. *)
Theorem C6_v2_disable_keeps_wrapper :
  let s2 := snd (V2._disable (snd (V2._enable net_up V2.DEFAULT_CONFIG module_load))) in
  getaddrinfo module_load = Orig /\
  getaddrinfo s2 = Patched 5%positive /\ getaddrinfo s2 <> Orig /\
  (forall fuel, resolve net_up fuel s2 "github.com" 443 no_hints = None) /\
  getaddrinfo (snd (V1._disable (snd (V1._enable net_up module_load)))) = Orig.
Proof.
  cbv zeta.
  assert (Hg : getaddrinfo (snd (V2._disable (snd (V2._enable net_up V2.DEFAULT_CONFIG module_load))))
               = Patched 5%positive) by (vm_compute; reflexivity).
  assert (Ho : original (snd (V2._disable (snd (V2._enable net_up V2.DEFAULT_CONFIG module_load))))
               = Patched 5%positive) by (vm_compute; reflexivity).
  split; [reflexivity|]. split; [exact Hg|]. split; [rewrite Hg; discriminate|].
  split; [|vm_compute; reflexivity].
  intros fuel. unfold resolve. rewrite Hg, Ho.
  apply call_resolver_self_loop. vm_compute. reflexivity.
Qed.

Lemma dict_merge_lookup (base overlay : gmap string entry) k :
  dict_merge base overlay !! k =
  match overlay !! k with Some e => Some e | None => base !! k end.
Proof.
  unfold dict_merge. rewrite lookup_union.
  destruct (overlay !! k), (base !! k); reflexivity.
Qed.

(** C3 (merge, as amended). A merge gives, for every key, the overlay's
    entry when the overlay has the key and the base's entry otherwise, so
    keys of only one side keep their entry. The statement follows a full
    run step by step, naming the dicts the source names: [github_hosts]
    ([gh], returned by the primary [_load_hosts] and installed by the
    first patch), [tmdb_hosts] ([t4], returned by the IPv4 [_load_hosts])
    and the IPv6 dict ([v6]). In both plugins [tmdb_hosts.update(...)]
    changes [t4] in place to the merge of the two secondary tables, and
    [v6] keeps its table. In the first plugin [github_hosts.update(...)]
    changes [gh] in place: the dict that held the primary table, which
    the closure installed by the first [_patch] consults, ends up holding
    the merged table, and the final closure consults that same dict. In
    the second plugin [{**github_hosts, **tmdb_hosts}] is a dict [c]
    created by the merge, which the final closure consults, while [gh]
    keeps the primary table. *)
Theorem C3_merge_right_biased (E : env) (p : plugin) (s : state) :
  fetch_table E (primary_url p) ≠ ∅ -> probe_ok E (probe_target p) = true ->
  (forall (base overlay : gmap string entry) k,
     dict_merge base overlay !! k =
     match overlay !! k with Some e => Some e | None => base !! k end) /\
  let s' := snd (update_all E p s) in
  let P := fetch_table E (primary_url p) in
  match p with
  | PluginV1 =>
      let T4 := fetch_table E V1.URL_TMDB_V4 in
      let T6 := fetch_table E V1.URL_TMDB_V6 in
      let '(gh, s1) := V1._load_hosts E V1.URL_GITHUB520 s in
      let s2 := snd (V1._patch gh s1) in
      let s3 := snd (V1._probe_github E s2) in
      let '(t4, s4) := V1._load_hosts E V1.URL_TMDB_V4 s3 in
      let '(v6, s5) := V1._load_hosts E V1.URL_TMDB_V6 s4 in
      (gh ∉ dom (heap s)) /\ heap s1 !! gh = Some P /\ getaddrinfo s2 = Patched gh /\
      heap s5 !! t4 = Some T4 /\ heap s5 !! v6 = Some T6 /\
      gh ≠ t4 /\ gh ≠ v6 /\ t4 ≠ v6 /\
      heap s' !! t4 = Some (dict_merge T4 T6) /\ heap s' !! v6 = Some T6 /\
      getaddrinfo s' = Patched gh /\ heap s' !! gh = Some (dict_merge P (dict_merge T4 T6))
  | PluginV2 cfg =>
      let T4 := fetch_table E (V2.tmdb_ipv4_url cfg) in
      let T6 := fetch_table E (V2.tmdb_ipv6_url cfg) in
      let s0 := snd (log INFO MsgUpdateStart s) in
      let '(gh, s1) := V2._load_hosts E (V2.github_url cfg) s0 in
      let s2 := snd (V2._patch_dns gh s1) in
      let s3 := snd (V2._probe_connectivity E (V2.probe_url cfg) s2) in
      let '(t4, s4) := V2._load_hosts E (V2.tmdb_ipv4_url cfg) s3 in
      let '(v6, s5) := V2._load_hosts E (V2.tmdb_ipv6_url cfg) s4 in
      heap s1 !! gh = Some P /\ getaddrinfo s2 = Patched gh /\
      heap s5 !! t4 = Some T4 /\ heap s5 !! v6 = Some T6 /\
      gh ≠ t4 /\ gh ≠ v6 /\ t4 ≠ v6 /\
      heap s' !! t4 = Some (dict_merge T4 T6) /\ heap s' !! v6 = Some T6 /\
      heap s' !! gh = Some P /\
      exists c, (c ∉ dom (heap s)) /\ c ≠ gh /\ c ≠ t4 /\ c ≠ v6 /\
        getaddrinfo s' = Patched c /\ heap s' !! c = Some (dict_merge P (dict_merge T4 T6))
  end.
Proof.
  intros Hne Hprobe. split; [apply dict_merge_lookup|].
  destruct p as [|cfg]; cbn in Hne, Hprobe |- *.
  - unfold V1._update_all. run_unfold.
    pose proof (V1_load_hosts_loaded E V1.URL_GITHUB520 s) as HL.
    destruct (V1._load_hosts E V1.URL_GITHUB520 s) as [gh s1].
    destruct HL as (Hf1 & Hgh & _ & He1 & _).
    cbn. rewrite Hgh. cbn. destruct (decide _); [done|].
    unfold V1._patch, V1._probe_github, probe_ok in *. run_unfold. cbn.
    destruct (raise_for_status (http_head E V1.URL_PROBE)); [done|]. cbn.
    set (s3 := add_log _ _).
    pose proof (V1_load_hosts_loaded E V1.URL_TMDB_V4 s3) as HL.
    destruct (V1._load_hosts E V1.URL_TMDB_V4 s3) as [t4 s4].
    destruct HL as (Hf4 & Ht4 & _ & He4 & _).
    pose proof (V1_load_hosts_loaded E V1.URL_TMDB_V6 s4) as HL.
    destruct (V1._load_hosts E V1.URL_TMDB_V6 s4) as [v6 s5].
    destruct HL as (Hf6 & Hv6 & _ & He6 & _).
    cbn.
    assert (Hgh3 : gh ∈ dom (heap s3)) by (apply (lookup_some_dom _ _ _ Hgh)).
    assert (Hgh4 : gh ∈ dom (heap s4)) by (by apply (heap_ext_dom (heap s3))).
    assert (Ht44 : t4 ∈ dom (heap s4)) by (apply (lookup_some_dom _ _ _ Ht4)).
    assert (Hgh5 : heap s5 !! gh = Some (fetch_table E V1.URL_GITHUB520)).
    { rewrite (He6 gh); [rewrite (He4 gh); [exact Hgh|exact Hgh3]|exact Hgh4]. }
    assert (Ht45 : heap s5 !! t4 = Some (fetch_table E V1.URL_TMDB_V4)).
    { rewrite (He6 t4); [exact Ht4|exact Ht44]. }
    assert (Hne4 : gh ≠ t4) by (intros ->; apply Hf4; exact Hgh3).
    assert (Hne6 : gh ≠ v6) by (intros ->; apply Hf6; exact Hgh4).
    assert (Hne46 : t4 ≠ v6) by (intros ->; apply Hf6; exact Ht44).
    rewrite Ht45, Hv6. cbn.
    repeat split; try assumption; try reflexivity;
      repeat first [rewrite lookup_insert_eq | rewrite lookup_insert_ne by congruence];
      rewrite ?Hgh5, ?Ht45, ?Hv6; reflexivity.
  - unfold V2._update_all. run_unfold. cbn.
    set (s0 := add_log _ s).
    pose proof (V2_load_hosts_loaded E (V2.github_url cfg) s0) as HL.
    destruct (V2._load_hosts E (V2.github_url cfg) s0) as [gh s1].
    destruct HL as (Hf1 & Hgh & _ & He1 & _).
    cbn. rewrite Hgh. cbn. destruct (decide _); [done|].
    unfold V2._patch_dns, V2._probe_connectivity, probe_ok in *. run_unfold. cbn.
    destruct (raise_for_status (http_head E (V2.probe_url cfg))); [done|]. cbn.
    set (s3 := add_log _ _).
    pose proof (V2_load_hosts_loaded E (V2.tmdb_ipv4_url cfg) s3) as HL.
    destruct (V2._load_hosts E (V2.tmdb_ipv4_url cfg) s3) as [t4 s4].
    destruct HL as (Hf4 & Ht4 & _ & He4 & _).
    pose proof (V2_load_hosts_loaded E (V2.tmdb_ipv6_url cfg) s4) as HL.
    destruct (V2._load_hosts E (V2.tmdb_ipv6_url cfg) s4) as [v6 s5].
    destruct HL as (Hf6 & Hv6 & _ & He6 & _).
    cbn.
    assert (Hgh3 : gh ∈ dom (heap s3)) by (apply (lookup_some_dom _ _ _ Hgh)).
    assert (Hgh4 : gh ∈ dom (heap s4)) by (by apply (heap_ext_dom (heap s3))).
    assert (Ht44 : t4 ∈ dom (heap s4)) by (apply (lookup_some_dom _ _ _ Ht4)).
    assert (Hgh5 : heap s5 !! gh = Some (fetch_table E (V2.github_url cfg))).
    { rewrite (He6 gh); [rewrite (He4 gh); [exact Hgh|exact Hgh3]|exact Hgh4]. }
    assert (Ht45 : heap s5 !! t4 = Some (fetch_table E (V2.tmdb_ipv4_url cfg))).
    { rewrite (He6 t4); [exact Ht4|exact Ht44]. }
    assert (Hne4 : gh ≠ t4) by (intros ->; apply Hf4; exact Hgh3).
    assert (Hne6 : gh ≠ v6) by (intros ->; apply Hf6; exact Hgh4).
    assert (Hne46 : t4 ≠ v6) by (intros ->; apply Hf6; exact Ht44).
    rewrite Ht45, Hv6. cbn.
    rewrite (lookup_insert_ne _ t4 gh) by congruence. rewrite Hgh5. cbn.
    rewrite lookup_insert_eq. cbn.
    set (h6 := <[t4 := _]> (heap s5)).
    set (c := fresh (dom h6)).
    assert (Hfc : c ∉ dom h6) by apply fresh_not_in.
    assert (Hsub5 : forall k, k ∈ dom (heap s) -> k ∈ dom h6).
    { intros k Hk. unfold h6. rewrite dom_insert_L. apply elem_of_union_r.
      apply (heap_ext_dom (heap s4)); [exact He6|].
      apply (heap_ext_dom (heap s3)); [exact He4|].
      apply (heap_ext_dom (heap s0)); [exact He1|exact Hk]. }
    assert (Hv66 : v6 ∈ dom h6).
    { unfold h6. rewrite dom_insert_L. apply elem_of_union_r. apply (lookup_some_dom _ _ _ Hv6). }
    assert (Hgh6 : gh ∈ dom h6).
    { unfold h6. rewrite dom_insert_L. apply elem_of_union_r. apply (lookup_some_dom _ _ _ Hgh5). }
    assert (Ht46 : t4 ∈ dom h6) by (unfold h6; rewrite dom_insert_L; set_solver).
    assert (Hcg : c ≠ gh) by (intros Heq; apply Hfc; rewrite Heq; exact Hgh6).
    assert (Hct : c ≠ t4) by (intros Heq; apply Hfc; rewrite Heq; exact Ht46).
    assert (Hcv : c ≠ v6) by (intros Heq; apply Hfc; rewrite Heq; exact Hv66).
    do 10 (split; [try assumption; try reflexivity;
      unfold h6; repeat first [rewrite lookup_insert_eq | rewrite lookup_insert_ne by congruence];
      rewrite ?Hgh5, ?Ht45, ?Hv6; reflexivity|]).
    exists c. split; [intros Hin; apply Hfc, Hsub5, Hin|].
    split; [exact Hcg|]. split; [exact Hct|]. split; [exact Hcv|].
    split; [reflexivity|]. apply lookup_insert_eq.
Qed.

Lemma C3_witness :
  fetch_table net_up (primary_url PluginV1) ≠ ∅ /\
  probe_ok net_up (probe_target PluginV1) = true /\
  ((forall (base overlay : gmap string entry) k,
     dict_merge base overlay !! k =
     match overlay !! k with Some e => Some e | None => base !! k end) /\
   let s' := snd (update_all net_up PluginV1 module_load) in
   let P := fetch_table net_up (primary_url PluginV1) in
   let T4 := fetch_table net_up V1.URL_TMDB_V4 in
   let T6 := fetch_table net_up V1.URL_TMDB_V6 in
   let '(gh, s1) := V1._load_hosts net_up V1.URL_GITHUB520 module_load in
   let s2 := snd (V1._patch gh s1) in
   let s3 := snd (V1._probe_github net_up s2) in
   let '(t4, s4) := V1._load_hosts net_up V1.URL_TMDB_V4 s3 in
   let '(v6, s5) := V1._load_hosts net_up V1.URL_TMDB_V6 s4 in
   (gh ∉ dom (heap module_load)) /\ heap s1 !! gh = Some P /\ getaddrinfo s2 = Patched gh /\
   heap s5 !! t4 = Some T4 /\ heap s5 !! v6 = Some T6 /\
   gh ≠ t4 /\ gh ≠ v6 /\ t4 ≠ v6 /\
   heap s' !! t4 = Some (dict_merge T4 T6) /\ heap s' !! v6 = Some T6 /\
   getaddrinfo s' = Patched gh /\ heap s' !! gh = Some (dict_merge P (dict_merge T4 T6))).
Proof.
  assert (Hne : fetch_table net_up (primary_url PluginV1) ≠ ∅)
    by (intros H; vm_compute in H; discriminate H).
  assert (Hp : probe_ok net_up (probe_target PluginV1) = true) by (vm_compute; reflexivity).
  split; [exact Hne|]. split; [exact Hp|].
  exact (C3_merge_right_biased net_up PluginV1 module_load Hne Hp).
Defined.

(** C3 as stated fails: in the first plugin the merge mutates its base.
    The dict [github_hosts] returned by the first [_load_hosts] holds the
    primary table (and is the one the first [_patch] installs), and after
    the full run the same dict holds the merged table. *)
Lemma C3_v1_base_mutated_counterexample :
  let '(gh, s1) := V1._load_hosts net_up V1.URL_GITHUB520 module_load in
  heap s1 !! gh = Some (parse_hosts net_up demo_primary) /\
  heap (snd (V1._update_all net_up module_load)) !! gh <>
    Some (parse_hosts net_up demo_primary).
Proof.
  vm_compute. split; [reflexivity|]. intros H. inversion H.
Qed.

Lemma V1_update_all_cache E s :
  runtime_hosts s ∈ dom (heap s) ->
  let s' := snd (V1._update_all E s) in
  runtime_hosts s' = runtime_hosts s /\
  heap s' !! runtime_hosts s = heap s !! runtime_hosts s.
Proof.
  intros Hrh. cbv zeta.
  destruct (decide (fetch_table E V1.URL_GITHUB520 = ∅)) as [He|Hne].
  - destruct (V1_update_all_empty E s He) as (_ & (Hh & _ & _ & Hr & _) & _). auto.
  - destruct (probe_ok E V1.URL_PROBE) eqn:Hp.
    + destruct (V1_update_all_success E s Hne Hp)
        as (_ & gh & t4 & _ & _ & _ & _ & _ & _ & Hh & _ & Hr & _). auto.
    + destruct (V1_update_all_gate E s Hne Hp) as (_ & _ & Hh & _ & Hr & _). auto.
Qed.

Lemma V2_update_all_cache E cfg s :
  runtime_hosts s ∈ dom (heap s) ->
  let s' := snd (V2._update_all E cfg s) in
  heap s' !! runtime_hosts s = heap s !! runtime_hosts s /\
  (runtime_hosts s' <> runtime_hosts s ->
     fetch_table E (V2.github_url cfg) ≠ ∅ /\ probe_ok E (V2.probe_url cfg) = true /\
     trace s' = trace s ++ [EvGet (V2.github_url cfg); EvHead (V2.probe_url cfg);
                            EvGet (V2.tmdb_ipv4_url cfg); EvGet (V2.tmdb_ipv6_url cfg)] /\
     getaddrinfo s' = Patched (runtime_hosts s')).
Proof.
  intros Hrh. cbv zeta.
  destruct (decide (fetch_table E (V2.github_url cfg) = ∅)) as [He|Hne].
  - destruct (V2_update_all_empty E cfg s He) as (_ & (Hh & _ & _ & Hr & _) & _).
    split; [auto|]. intros Hc. contradiction.
  - destruct (probe_ok E (V2.probe_url cfg)) eqn:Hp.
    + destruct (V2_update_all_success E cfg s Hne Hp)
        as (Htr & gh & t4 & c & _ & _ & _ & _ & _ & _ & Hg & Hr & _ & _ & _ & Hh & _).
      split; [auto|]. intros _. rewrite Hr. auto.
    + destruct (V2_update_all_gate E cfg s Hne Hp) as (_ & _ & Hh & _ & Hr & _).
      split; [auto|]. intros Hc. contradiction.
Qed.

(** C10 (the [_RUNTIME_HOSTS] cache is not what the resolver consults).
    From a state where [_RUNTIME_HOSTS] names a live dict: a run of either
    plugin that stops at the probe leaves the binding and the contents of
    [_RUNTIME_HOSTS] as they were while the installed closure consults the
    fresh primary table; every run of the first plugin leaves them as
    they were; a run of the second plugin never changes the old dict's
    contents and rebinds [_RUNTIME_HOSTS] only after the full pipeline
    (non-empty primary, passing probe, both secondary fetches), to the
    dict the closure consults. After a probe failure of the second plugin
    from the freshly loaded module, the cache and the consulted table differ. *)
Theorem C10_cache_vs_resolver (E : env) (s : state) :
  runtime_hosts s ∈ dom (heap s) ->
  (forall p, fetch_table E (primary_url p) ≠ ∅ -> probe_ok E (probe_target p) = false ->
     let s' := snd (update_all E p s) in
     runtime_hosts s' = runtime_hosts s /\
     heap s' !! runtime_hosts s = heap s !! runtime_hosts s /\
     consulted s' = Some (fetch_table E (primary_url p))) /\
  (let s' := snd (V1._update_all E s) in
   runtime_hosts s' = runtime_hosts s /\
   heap s' !! runtime_hosts s = heap s !! runtime_hosts s) /\
  (forall cfg, let s' := snd (V2._update_all E cfg s) in
   heap s' !! runtime_hosts s = heap s !! runtime_hosts s /\
   (runtime_hosts s' <> runtime_hosts s ->
      fetch_table E (V2.github_url cfg) ≠ ∅ /\ probe_ok E (V2.probe_url cfg) = true /\
      trace s' = trace s ++ [EvGet (V2.github_url cfg); EvHead (V2.probe_url cfg);
                             EvGet (V2.tmdb_ipv4_url cfg); EvGet (V2.tmdb_ipv6_url cfg)] /\
      getaddrinfo s' = Patched (runtime_hosts s'))) /\
  (let s' := snd (V2._update_all net_probe_down V2.DEFAULT_CONFIG module_load) in
   consulted s' <> heap s' !! runtime_hosts s').
Proof.
  intros Hrh. split; [|split; [|split]].
  - intros p Hne Hp. destruct p as [|cfg]; cbn in Hne, Hp |- *.
    + destruct (V1_update_all_gate E s Hne Hp) as (_ & Hc & Hh & _ & Hr & _). auto.
    + destruct (V2_update_all_gate E cfg s Hne Hp) as (_ & Hc & Hh & _ & Hr & _). auto.
  - by apply V1_update_all_cache.
  - intros cfg. by apply V2_update_all_cache.
  - vm_compute. intros H. inversion H.
Qed.

Lemma C10_witness :
  runtime_hosts module_load ∈ dom (heap module_load) /\
  (let s' := snd (V1._update_all net_up module_load) in
   runtime_hosts s' = runtime_hosts module_load /\
   heap s' !! runtime_hosts module_load = heap module_load !! runtime_hosts module_load).
Proof.
  assert (Hrh : runtime_hosts module_load ∈ dom (heap module_load))
    by (cbn; rewrite dom_singleton_L; set_solver).
  split; [exact Hrh|].
  exact (proj1 (proj2 (C10_cache_vs_resolver net_up module_load Hrh))).
Defined.

(* ------------------------------------------------------------------ *)
(** ** Further properties of the code *)

Lemma bind_snd {A B} (m : M A) (k : A -> M B) s :
  snd ((m ≫= k) s) = snd (k (fst (m s)) (snd (m s))).
Proof. cbv [mbind M_bind]. by destruct (m s). Qed.

Lemma bind_fst {A B} (m : M A) (k : A -> M B) s :
  fst ((m ≫= k) s) = fst (k (fst (m s)) (snd (m s))).
Proof. cbv [mbind M_bind]. by destruct (m s). Qed.

Lemma update_all_frame E p s :
  let s' := snd (update_all E p s) in
  trace s' = trace s ++ update_requests E p /\
  original s' = original s /\ jobs s' = jobs s.
Proof.
  unfold update_requests.
  destruct (decide (fetch_table E (primary_url p) = ∅)) as [He|Hne].
  - rewrite bool_decide_eq_true_2 by exact He.
    destruct p as [|cfg]; cbn in *.
    + destruct (V1_update_all_empty E s He) as (Htr & (_ & _ & Ho & Hr & Hj) & _). auto.
    + destruct (V2_update_all_empty E cfg s He) as (Htr & (_ & _ & Ho & Hr & Hj) & _). auto.
  - rewrite bool_decide_eq_false_2 by exact Hne.
    destruct (probe_ok E (probe_target p)) eqn:Hp.
    + destruct p as [|cfg]; cbn in *.
      * destruct (V1_update_all_success E s Hne Hp) as (Htr & gh & t4 & _ & _ & _ & _ & _ & _ & _ & Ho & Hr & Hj). auto.
      * destruct (V2_update_all_success E cfg s Hne Hp) as (Htr & gh & t4 & c & _ & _ & _ & _ & _ & _ & _ & Hr & _ & _ & _ & _ & Ho & Hj).
        auto.
    + destruct p as [|cfg]; cbn in *.
      * destruct (V1_update_all_gate E s Hne Hp) as (Htr & _ & _ & Ho & Hr & Hj). auto.
      * destruct (V2_update_all_gate E cfg s Hne Hp) as (Htr & _ & _ & Ho & Hr & Hj). auto.
Qed.

Lemma V1_update_all_original E s :
  original (snd (V1._update_all E s)) = original s /\ jobs (snd (V1._update_all E s)) = jobs s.
Proof. destruct (update_all_frame E PluginV1 s) as (_ & Ho & Hj). auto. Qed.

Lemma V1_stop_service_state s :
  let s' := snd (V1.stop_service s) in
  s' = set_jobs (jobs s ∖ {[V1.JOB_ID]}) s.
Proof.
  unfold V1.stop_service, V1.scheduler_remove_job. run_unfold. cbn.
  destruct (decide _) as [Hin|Hout]; cbn; [done|].
  destruct s; unfold set_jobs; cbn. f_equal. set_solver.
Qed.

Lemma V1_register_job_jobs s :
  snd (V1._register_job s) = set_jobs ({[V1.JOB_ID]} ∪ (jobs s ∖ {[V1.JOB_ID]})) s.
Proof.
  unfold V1._register_job. rewrite bind_snd, V1_stop_service_state. cbn. by destruct s.
Qed.

Lemma V1_disable_state s :
  let s' := snd (V1._disable s) in
  original s' = original s /\ getaddrinfo s' = original s /\ jobs s' = jobs s ∖ {[V1.JOB_ID]} /\
  trace s' = trace s /\ runtime_hosts s' = runtime_hosts s.
Proof.
  unfold V1._disable. rewrite bind_snd, V1_stop_service_state. run_unfold. cbn. auto.
Qed.

Lemma V1_enable_state E s :
  let s' := snd (V1._enable E s) in
  original s' = original s /\ jobs s' = {[V1.JOB_ID]} ∪ (jobs s ∖ {[V1.JOB_ID]}) /\
  trace s' = trace s ++ update_requests E PluginV1.
Proof.
  unfold V1._enable. rewrite !bind_snd, V1_register_job_jobs.
  destruct (update_all_frame E PluginV1 s) as (Htr & Ho & Hj). cbn in Htr, Ho, Hj.
  cbn. rewrite Ho, Hj, Htr. auto.
Qed.

Lemma V1_init_plugin_config_unfold E c s :
  V1.init_plugin_config E c s = if V1.enabled_of c then V1._enable E s else V1._disable s.
Proof. unfold V1.init_plugin_config, V1.init_plugin. by destruct (V1.enabled_of c). Qed.

Lemma V1_reachable_original s : V1_reachable s -> original s = Orig.
Proof.
  induction 1 as [|E c s _ IH|E s _ IH|E s _ IH|s _ IH|s _ IH|s _ IH].
  - reflexivity.
  - rewrite V1_init_plugin_config_unfold. destruct (V1.enabled_of c).
    + by rewrite (proj1 (V1_enable_state E s)).
    + by rewrite (proj1 (V1_disable_state s)).
  - by rewrite (proj1 (V1_update_all_original E s)).
  - by rewrite (proj1 (V1_enable_state E s)).
  - by rewrite (proj1 (V1_disable_state s)).
  - by rewrite V1_register_job_jobs.
  - by rewrite V1_stop_service_state.
Qed.

Lemma call_resolver_orig E fuel (h : gmap loc (gmap string entry)) r host port a :
  call_resolver E (S (S fuel)) h Orig r host port a =
  Some (match r with
        | Orig => platform_getaddrinfo E host port a
        | Patched l =>
            match default ∅ (h !! l) !! lower host with
            | Some (ip, fam) => GaiList [mkAddrinfo fam SOCK_STREAM 0 EmptyString (SA2 ip port)]
            | None => platform_getaddrinfo E host port a
            end
        end).
Proof.
  destruct r as [|l]; cbn; [done|].
  destruct (default ∅ (h !! l) !! lower host) as [[ip fam]|]; done.
Qed.

(** X (first plugin: the resolver chain always ends at the platform).
    In every state the first plugin can reach from the loaded module,
    [_ORIGINAL_GETADDRINFO] is still the platform function, so with two
    call levels every name resolves: a name in the table the installed
    closure consults gets the stored entry, and any other name gets the
    platform resolver's result for the same host, port and hints. *)
Theorem X_v1_reachable_resolution (s : state) (H : V1_reachable s) :
  original s = Orig /\
  forall E fuel host port a,
    resolve E (S (S fuel)) s host port a =
    Some (match consulted s ≫= (fun t => t !! lower host) with
          | Some (ip, fam) => GaiList [mkAddrinfo fam SOCK_STREAM 0 EmptyString (SA2 ip port)]
          | None => platform_getaddrinfo E host port a
          end).
Proof.
  pose proof (V1_reachable_original s H) as Ho. split; [exact Ho|].
  intros E fuel host port a. unfold resolve, consulted. rewrite Ho, call_resolver_orig.
  destruct (getaddrinfo s) as [|l]; cbn; [done|].
  destruct (heap s !! l) as [t|]; cbn; [done|]. by rewrite lookup_empty.
Qed.

Lemma X_v1_reachable_resolution_witness :
  V1_reachable (snd (V1._enable net_up module_load)) /\
  (original (snd (V1._enable net_up module_load)) = Orig /\
  forall E fuel host port a,
    resolve E (S (S fuel)) (snd (V1._enable net_up module_load)) host port a =
    Some (match consulted (snd (V1._enable net_up module_load)) ≫= (fun t => t !! lower host) with
          | Some (ip, fam) => GaiList [mkAddrinfo fam SOCK_STREAM 0 EmptyString (SA2 ip port)]
          | None => platform_getaddrinfo E host port a
          end)).
Proof.
  assert (H : V1_reachable (snd (V1._enable net_up module_load)))
    by (apply V1r_enable, V1r_load).
  split; [exact H|]. exact (X_v1_reachable_resolution _ H).
Defined.

(** X (first plugin: [_disable] restores the platform resolver). From
    every state the first plugin can reach, [_disable()] leaves
    [socket.getaddrinfo] equal to the platform function and no daily job
    registered: every name then gets the platform resolver's own result. *)
Theorem X_v1_disable_restores (s : state) (H : V1_reachable s) :
  let s' := snd (V1._disable s) in
  V1_reachable s' /\ getaddrinfo s' = Orig /\ (V1.JOB_ID ∉ jobs s') /\
  forall E fuel host port a,
    resolve E (S fuel) s' host port a = Some (platform_getaddrinfo E host port a).
Proof.
  cbv zeta. pose proof (V1_reachable_original s H) as Ho.
  destruct (V1_disable_state s) as (Ho' & Hg & Hj & _).
  split; [by apply V1r_disable|].
  split; [congruence|]. split; [rewrite Hj; set_solver|].
  intros E fuel host port a. unfold resolve. rewrite Hg, Ho. reflexivity.
Qed.

Lemma X_v1_disable_restores_witness :
  V1_reachable (snd (V1._enable net_up module_load)) /\
  (let s' := snd (V1._disable (snd (V1._enable net_up module_load))) in
   V1_reachable s' /\ getaddrinfo s' = Orig /\ (V1.JOB_ID ∉ jobs s') /\
   forall E fuel host port a,
     resolve E (S fuel) s' host port a = Some (platform_getaddrinfo E host port a)).
Proof.
  assert (H : V1_reachable (snd (V1._enable net_up module_load)))
    by (apply V1r_enable, V1r_load).
  split; [exact H|]. exact (X_v1_disable_restores _ H).
Defined.

(** X (first plugin: [get_state] after [init_plugin]). After
    [init_plugin(config)], [get_state()] (whether the scheduler holds the
    daily job) is exactly the [enabled] flag computed from the config.
    When that flag is false, no network request was made and
    [socket.getaddrinfo] is [_ORIGINAL_GETADDRINFO]. *)
Theorem X_v1_get_state_after_init (E : env) (c : option pydict) (s : state) :
  let s' := snd (V1.init_plugin_config E c s) in
  fst (V1.get_state s') = V1.enabled_of c /\
  (V1.enabled_of c = false -> trace s' = trace s /\ getaddrinfo s' = original s).
Proof.
  cbv zeta. rewrite V1_init_plugin_config_unfold.
  destruct (V1.enabled_of c).
  - destruct (V1_enable_state E s) as (_ & Hj & _).
    unfold V1.get_state, gets. cbn. rewrite Hj. split; [|done].
    apply bool_decide_eq_true_2. set_solver.
  - destruct (V1_disable_state s) as (_ & Hg & Hj & Htr & _).
    unfold V1.get_state, gets. cbn. rewrite Hj. split; [|done].
    apply bool_decide_eq_false_2. set_solver.
Qed.

(** X (the enable decision of both plugins). The first plugin enables
    itself exactly when a config is given whose "enable" value is truthy:
    no config, [{}] or a config without "enable" disable it. The second
    plugin replaces a missing or empty config by [DEFAULT_CONFIG] and
    reads "enable" with default [True]: it is enabled unless the config
    holds a falsy "enable" value. *)
Theorem X_config_enable_decision (c : option pydict) :
  V1.enabled_of c =
    match c ≫= (fun d => d !! "enable") with Some v => truthy v | None => false end /\
  V2.get_state (V2.effective_config c) =
    match c ≫= (fun d => d !! "enable") with Some v => truthy v | None => true end.
Proof.
  destruct c as [d|]; cbn; [|done].
  unfold V1.enabled_of, V2.effective_config, V2.get_state, dict_truthy, dict_get.
  destruct (bool_decide (d = ∅)) eqn:Hd; cbn.
  - apply bool_decide_eq_true_1 in Hd. subst d. split; reflexivity.
  - destruct (d !! "enable"); done.
Qed.

Lemma V2_disable_state s :
  let s' := snd (V2._disable s) in
  original s' = original s /\ getaddrinfo s' = original s /\ jobs s' = jobs s /\
  trace s' = trace s /\ runtime_hosts s' = runtime_hosts s /\
  heap s' !! runtime_hosts s = Some ∅.
Proof. unfold V2._disable. run_unfold. cbn. rewrite lookup_insert_eq. repeat split. Qed.

Lemma V2_register_job_state cfg s :
  let s' := snd (V2._register_job cfg s) in
  original s' = original s /\ getaddrinfo s' = getaddrinfo s /\ trace s' = trace s /\
  heap s' = heap s /\
  jobs s' = if V2.enable cfg then {[V2.JOB_ID]} ∪ (jobs s ∖ {[V2.JOB_ID]}) else jobs s ∖ {[V2.JOB_ID]}.
Proof.
  unfold V2._register_job, V2.remove_job, V2.add_job. run_unfold. cbn.
  destruct (V2.enable cfg); cbn; auto.
Qed.

Lemma V2_enable_state E cfg s :
  let s1 := snd (V2._update_all E cfg s) in
  let s' := snd (V2._enable E cfg s) in
  original s' = getaddrinfo s1 /\ getaddrinfo s' = getaddrinfo s1 /\ jobs s' = jobs s /\
  trace s' = trace s ++ update_requests E (PluginV2 cfg).
Proof.
  cbv zeta. destruct (update_all_frame E (PluginV2 cfg) s) as (Htr & Ho & Hj). cbn in Htr, Ho, Hj.
  unfold V2._enable. rewrite !bind_snd. run_unfold. cbn. auto.
Qed.

(** X (second plugin: [init_plugin] and the daily job). With
    [self.config = config or DEFAULT_CONFIG], after [init_plugin(config)]
    the daily job is registered exactly when [get_state()] (the config's
    "enable") is true, no other scheduler job is touched, and the requests
    made are those of one [_update_all] run when enabled and none when
    disabled. *)
Theorem X_v2_init_plugin_jobs (E : env) (c : option V2.config) (s : state) :
  let cfg := V2.self_config c in
  let s' := snd (V2.init_plugin E c s) in
  V2.get_state (V2.config_dict cfg) = V2.enable cfg /\
  (V2.JOB_ID ∈ jobs s' <-> V2.get_state (V2.config_dict cfg) = true) /\
  jobs s' ∖ {[V2.JOB_ID]} = jobs s ∖ {[V2.JOB_ID]} /\
  trace s' = trace s ++ (if V2.enable cfg then update_requests E (PluginV2 cfg) else []).
Proof.
  unfold V2.init_plugin. cbv zeta. rewrite !bind_snd.
  set (cfg := V2.self_config c).
  assert (Hgs : V2.get_state (V2.config_dict cfg) = V2.enable cfg).
  { unfold V2.get_state, V2.config_dict, dict_get.
    destruct (V2.enable cfg); reflexivity. }
  rewrite Hgs. split; [reflexivity|].
  cbv [mbind mret M_bind M_ret log modify]. cbn.
  destruct (V2.enable cfg) eqn:He.
  - destruct (V2_enable_state E cfg s) as (_ & _ & Hj & Htr).
    set (s1 := snd (V2._enable E cfg s)) in *.
    destruct (V2_register_job_state cfg s1) as (_ & _ & Htr2 & _ & Hj2).
    rewrite He in Hj2. cbn. rewrite Hj2, Htr2, Hj, Htr.
    split; [split; [done|intros _; set_solver]|]. split; [set_solver|done].
  - destruct (V2_disable_state s) as (_ & _ & Hj & Htr & _).
    set (s1 := snd (V2._disable s)) in *.
    destruct (V2_register_job_state cfg s1) as (_ & _ & Htr2 & _ & Hj2).
    rewrite He in Hj2. cbn. rewrite Hj2, Htr2, Hj, Htr.
    split; [split; [set_solver|discriminate]|]. split; [set_solver|by rewrite app_nil_r].
Qed.

(** X (second plugin: [stop_plugin]). [stop_plugin()] removes the daily
    job and nothing else from the scheduler, sets [socket.getaddrinfo] to
    the value of [_ORIGINAL_GETADDRINFO] (which it leaves unchanged),
    empties the dict bound to [_RUNTIME_HOSTS] and makes no request. *)
Theorem X_v2_stop_plugin (s : state) :
  let s' := snd (V2.stop_plugin s) in
  (V2.JOB_ID ∉ jobs s') /\ jobs s' = jobs s ∖ {[V2.JOB_ID]} /\
  getaddrinfo s' = original s /\ original s' = original s /\
  heap s' !! runtime_hosts s = Some ∅ /\ trace s' = trace s.
Proof.
  cbv zeta. unfold V2.stop_plugin. rewrite !bind_snd.
  destruct (V2_disable_state s) as (Ho & Hg & Hj & Htr & Hr & Hh).
  unfold V2.remove_job. run_unfold. cbn. rewrite Hj. split; [set_solver|]. auto.
Qed.

(** X (second plugin: where [_ORIGINAL_GETADDRINFO] changes). Of the
    second plugin's functions, [_update_all], [_disable], [_register_job]
    and [stop_plugin] leave [_ORIGINAL_GETADDRINFO] unchanged, and
    [_enable] sets it to the resolver [_update_all] left installed, which
    is also [socket.getaddrinfo] when [_enable] returns. *)
Theorem X_v2_original_written_by_enable_only (E : env) (cfg : V2.config) (s : state) :
  original (snd (V2._update_all E cfg s)) = original s /\
  original (snd (V2._disable s)) = original s /\
  original (snd (V2._register_job cfg s)) = original s /\
  original (snd (V2.stop_plugin s)) = original s /\
  original (snd (V2._enable E cfg s)) = getaddrinfo (snd (V2._enable E cfg s)) /\
  getaddrinfo (snd (V2._enable E cfg s)) = getaddrinfo (snd (V2._update_all E cfg s)).
Proof.
  destruct (update_all_frame E (PluginV2 cfg) s) as (_ & Ho & _).
  destruct (V2_disable_state s) as (Hod & _).
  destruct (V2_register_job_state cfg s) as (Hor & _).
  destruct (V2_enable_state E cfg s) as (Hoe & Hge & _).
  split; [exact Ho|]. split; [exact Hod|]. split; [exact Hor|].
  split; [|split; [congruence|exact Hge]].
  unfold V2.stop_plugin. rewrite !bind_snd. unfold V2.remove_job. run_unfold. cbn. exact Hod.
Qed.

(** X (requests of one update run). A run of [_update_all] of either
    plugin issues exactly these requests, in order: the primary GET; then,
    if the primary table is non-empty, the probe HEAD; then, if the probe
    passes, the IPv4 and IPv6 secondary GETs. No request is retried. The
    run changes neither [_ORIGINAL_GETADDRINFO] nor the scheduler's jobs. *)
Theorem X_update_all_requests (E : env) (p : plugin) (s : state) :
  let s' := snd (update_all E p s) in
  trace s' = trace s ++ update_requests E p /\
  original s' = original s /\ jobs s' = jobs s.
Proof. apply update_all_frame. Qed.

(** X (the two probe helpers agree up to the log text). The first
    plugin's [_probe_github()] and the second plugin's
    [_probe_connectivity(url)] called with the first plugin's fixed URL
    return the same result, whether [raise_for_status] accepts the HEAD
    response, and leave the same state apart from the log. Each issues
    that one HEAD request and appends exactly one log line, at level INFO
    on success and WARNING on failure; only the texts of the lines differ. *)
Theorem X_probe_variants_agree (E : env) (s : state) :
  let r1 := V1._probe_github E s in
  let r2 := V2._probe_connectivity E V1.URL_PROBE s in
  fst r1 = probe_ok E V1.URL_PROBE /\ fst r2 = fst r1 /\
  same_but_logs (snd r1) (snd r2) /\
  same_but_logs (snd r1) (add_event (EvHead V1.URL_PROBE) s) /\
  (exists m1 m2,
     logs (snd r1) = logs s ++ [(if fst r1 then INFO else WARNING, m1)] /\
     logs (snd r2) = logs s ++ [(if fst r1 then INFO else WARNING, m2)]).
Proof.
  unfold V1._probe_github, V2._probe_connectivity, probe_ok, same_but_logs. run_unfold. cbn.
  destruct (raise_for_status (http_head E V1.URL_PROBE)); cbn.
  - repeat split. eexists _, _. split; reflexivity.
  - repeat split. eexists _, _. split; reflexivity.
Qed.

Lemma V1_update_all_gate_fresh E s :
  fetch_table E V1.URL_GITHUB520 ≠ ∅ -> probe_ok E V1.URL_PROBE = false ->
  exists l, getaddrinfo (snd (V1._update_all E s)) = Patched l /\ (l ∉ dom (heap s)).
Proof.
  intros Hne Hprobe. unfold V1._update_all. run_unfold.
  pose proof (V1_load_hosts_loaded E V1.URL_GITHUB520 s) as HL.
  destruct (V1._load_hosts E V1.URL_GITHUB520 s) as [gh s1].
  destruct HL as (Hfresh & Hgh & Htr & Hp).
  cbn. rewrite Hgh. cbn. destruct (decide _); [done|].
  unfold V1._patch, V1._probe_github, probe_ok in *. run_unfold. cbn.
  destruct (raise_for_status (http_head E V1.URL_PROBE)); [|done]. cbn.
  by exists gh.
Qed.

Lemma V2_update_all_gate_fresh E cfg s :
  fetch_table E (V2.github_url cfg) ≠ ∅ -> probe_ok E (V2.probe_url cfg) = false ->
  exists l, getaddrinfo (snd (V2._update_all E cfg s)) = Patched l /\ (l ∉ dom (heap s)).
Proof.
  intros Hne Hprobe. unfold V2._update_all. run_unfold. cbn.
  set (s0 := add_log _ s).
  pose proof (V2_load_hosts_loaded E (V2.github_url cfg) s0) as HL.
  destruct (V2._load_hosts E (V2.github_url cfg) s0) as [gh s1].
  destruct HL as (Hfresh & Hgh & Htr & Hp).
  cbn. rewrite Hgh. cbn. destruct (decide _); [done|].
  unfold V2._patch_dns, V2._probe_connectivity, probe_ok in *. run_unfold. cbn.
  destruct (raise_for_status (http_head E (V2.probe_url cfg))); [|done]. cbn.
  by exists gh.
Qed.

(** X (an update run never changes an existing dict). A run of
    [_update_all] of either plugin leaves every dict that existed before
    it with its contents. If the run changes [socket.getaddrinfo], the new
    closure consults a dict created during the run. *)
Theorem X_update_all_heap_frame (E : env) (p : plugin) (s : state) :
  let s' := snd (update_all E p s) in
  heap_ext (heap s) (heap s') /\
  (getaddrinfo s' = getaddrinfo s \/ exists l, getaddrinfo s' = Patched l /\ (l ∉ dom (heap s))).
Proof.
  cbv zeta.
  destruct (decide (fetch_table E (primary_url p) = ∅)) as [He|Hne].
  - destruct p as [|cfg]; cbn in *.
    + destruct (V1_update_all_empty E s He) as (_ & (Hh & Hg & _) & _). auto.
    + destruct (V2_update_all_empty E cfg s He) as (_ & (Hh & Hg & _) & _). auto.
  - destruct (probe_ok E (probe_target p)) eqn:Hp.
    + destruct p as [|cfg]; cbn in *.
      * destruct (V1_update_all_success E s Hne Hp)
          as (_ & gh & t4 & Hf & _ & _ & Hg & _ & _ & Hh & _). eauto.
      * destruct (V2_update_all_success E cfg s Hne Hp)
          as (_ & gh & t4 & c & _ & _ & Hf & _ & _ & _ & Hg & _ & _ & _ & _ & Hh & _). eauto.
    + destruct p as [|cfg]; cbn in *.
      * destruct (V1_update_all_gate E s Hne Hp) as (_ & _ & Hh & _).
        destruct (V1_update_all_gate_fresh E s Hne Hp) as (l & Hg & Hf). eauto.
      * destruct (V2_update_all_gate E cfg s Hne Hp) as (_ & _ & Hh & _).
        destruct (V2_update_all_gate_fresh E cfg s Hne Hp) as (l & Hg & Hf). eauto.
Qed.

Lemma splitlines_go_app_lf a : forall b cur,
  exists extra, (extra = [] \/ extra = [EmptyString]) /\
    splitlines_go cur (String.append a (String LF b)) = splitlines_go cur a ++ extra ++ splitlines_go [] b.
Proof.
  induction a as [|c r IH]; intros b cur.
  - cbn. destruct cur as [|x xs].
    + exists [EmptyString]. split; [by right|]. reflexivity.
    + exists []. split; [by left|]. reflexivity.
  - change (String.append (String c r) (String LF b)) with (String c (String.append r (String LF b))).
    cbn [splitlines_go].
    destruct (Ascii.eqb c CR) eqn:Hc.
    + destruct r as [|c' r'].
      * exists []. split; [by left|]. cbn. reflexivity.
      * change (String.append (String c' r') (String LF b)) with (String c' (String.append r' (String LF b))).
        destruct (Ascii.eqb c' LF) eqn:Hc'.
        -- apply Ascii.eqb_eq in Hc'. subst c'.
           destruct (IH b []) as (extra & Hx & Heq).
           change (String.append (String LF r') (String LF b)) with (String LF (String.append r' (String LF b))) in Heq.
           cbn [splitlines_go] in Heq. cbn in Heq.
           injection Heq as Heq.
           exists extra. split; [exact Hx|]. rewrite Heq. reflexivity.
        -- destruct (IH b []) as (extra & Hx & Heq).
           exists extra. split; [exact Hx|].
           change (String.append (String c' r') (String LF b)) with (String c' (String.append r' (String LF b))) in Heq.
           cbv beta iota. rewrite Hc', Heq. reflexivity.
    + destruct (is_linebreak c).
      * destruct (IH b []) as (extra & Hx & Heq).
        exists extra. split; [exact Hx|]. rewrite Heq. reflexivity.
      * apply IH.
Qed.

Lemma parse_line_empty E : parse_line E EmptyString = None.
Proof. reflexivity. Qed.

Lemma parse_into_app E t xs ys :
  fold_left (fun (h : gmap string entry) line => match parse_line E line with
                           | Some (host, e) => <[host := e]> h | None => h end) (xs ++ ys) t =
  fold_left (fun (h : gmap string entry) line => match parse_line E line with
                           | Some (host, e) => <[host := e]> h | None => h end) ys
    (fold_left (fun (h : gmap string entry) line => match parse_line E line with
                              | Some (host, e) => <[host := e]> h | None => h end) xs t).
Proof. apply fold_left_app. Qed.

Lemma parse_fold_union E xs : forall (m t : gmap string entry),
  fold_left (fun (h : gmap string entry) line => match parse_line E line with
                           | Some (host, e) => <[host := e]> h | None => h end) xs (m ∪ t) =
  fold_left (fun (h : gmap string entry) line => match parse_line E line with
                           | Some (host, e) => <[host := e]> h | None => h end) xs m ∪ t.
Proof.
  induction xs as [|x xs IH]; intros m t; cbn; [done|].
  destruct (parse_line E x) as [[host e]|].
  - rewrite insert_union_l. apply IH.
  - apply IH.
Qed.

Lemma parse_into_merge E t text : parse_into E t text = dict_merge t (parse_hosts E text).
Proof.
  unfold parse_into, parse_hosts, dict_merge.
  rewrite <- (map_empty_union t) at 1. apply parse_fold_union.
Qed.

(** X (parsing concatenated hosts documents). Parsing [a + "\n" + b]
    into a dict is parsing [a] into it and then [b] into the result.
    Parsing into an existing dict is merging the parsed table over it.
    So the table of [a + "\n" + b] is [a]'s table updated with [b]'s
    entries: on a repeated hostname, the later document wins. *)
Theorem X_parse_concat (E : env) (t : gmap string entry) (a b : string) :
  parse_into E t (String.append a (String LF b)) = parse_into E (parse_into E t a) b /\
  parse_into E t a = dict_merge t (parse_hosts E a) /\
  parse_hosts E (String.append a (String LF b)) = dict_merge (parse_hosts E a) (parse_hosts E b).
Proof.
  assert (H : forall t, parse_into E t (String.append a (String LF b)) =
                        parse_into E (parse_into E t a) b).
  { intros t'. unfold parse_into, splitlines.
    destruct (splitlines_go_app_lf a b []) as (extra & Hx & Heq). rewrite Heq.
    rewrite !parse_into_app. f_equal.
    destruct Hx as [->| ->]; reflexivity. }
  split; [apply H|]. split; [apply parse_into_merge|].
  unfold parse_hosts at 1. rewrite H. apply parse_into_merge.
Qed.

Lemma no_space_cons c r : no_space (String c r) = negb (is_space c) && no_space r.
Proof. reflexivity. Qed.

Lemma split_aux_tokens s :
  no_space (fst (split_aux s)) = true /\
  Forall (fun t => t <> EmptyString /\ no_space t = true) (snd (split_aux s)).
Proof.
  induction s as [|c r IH]; cbn -[no_space]; [split; [done|constructor]|].
  destruct (split_aux r) as [tok toks]. cbn in IH. destruct IH as [Htok Htoks].
  destruct (is_space c) eqn:Hc; cbn -[no_space].
  - split; [done|]. destruct tok as [|c' r']; [exact Htoks|].
    constructor; [|exact Htoks]. split; [discriminate|exact Htok].
  - split; [|exact Htoks]. rewrite no_space_cons, Hc. exact Htok.
Qed.

Lemma split_tokens s : Forall (fun t => t <> EmptyString /\ no_space t = true) (split s).
Proof.
  unfold split. pose proof (split_aux_tokens s) as [Htok Htoks].
  destruct (split_aux s) as [tok toks]. cbn in *.
  destruct tok as [|c r]; [exact Htoks|].
  constructor; [|exact Htoks]. split; [discriminate|exact Htok].
Qed.

Lemma lower_char_idem c : lower_char (lower_char c) = lower_char c.
Proof. destruct c as [[] [] [] [] [] [] [] []]; reflexivity. Qed.

Lemma is_space_lower_char c : is_space (lower_char c) = is_space c.
Proof. destruct c as [[] [] [] [] [] [] [] []]; reflexivity. Qed.

Lemma lower_idem s : lower (lower s) = lower s.
Proof. induction s as [|c r IH]; cbn; [done|]. by rewrite lower_char_idem, IH. Qed.

Lemma no_space_lower s : no_space (lower s) = no_space s.
Proof.
  induction s as [|c r IH]; [done|]. cbn [lower].
  rewrite !no_space_cons, is_space_lower_char, IH. reflexivity.
Qed.

Lemma lower_nonempty s : s <> EmptyString -> lower s <> EmptyString.
Proof. destruct s; cbn; [done|discriminate]. Qed.

Lemma Forall_last {A} (P : A -> Prop) (xs : list A) (d : A) :
  Forall P xs -> xs <> [] -> P (List.last xs d).
Proof.
  induction 1 as [|x xs Hx Hxs IH]; [done|]. intros _.
  destruct xs as [|y ys]; [exact Hx|]. cbn. apply IH. discriminate.
Qed.

Lemma parse_line_shape E line host v :
  parse_line E line = Some (host, v) -> entry_shape E host v.
Proof.
  unfold parse_line. destruct (strip line) as [|c r]; [discriminate|].
  set (l := String c r).
  destruct (startswith_hash l); [discriminate|].
  pose proof (split_tokens l) as Hall.
  destruct (2 <=? List.length (split l))%nat; [|discriminate].
  destruct (split l) as [|ip rest] eqn:Hs; [discriminate|].
  destruct (_is_valid_ip E ip) eqn:Hip; [|discriminate].
  intros H. injection H as <- <-.
  pose proof (Forall_last _ _ EmptyString Hall ltac:(discriminate)) as [Hne Hns].
  inversion Hall as [|? ? [Hipne Hipns] _]; subst.
  unfold entry_shape; cbn.
  split; [by apply lower_nonempty|].
  split; [by rewrite no_space_lower|].
  split; [apply lower_idem|].
  repeat split; assumption.
Qed.

Lemma parse_fold_invariant E (Q : string -> entry -> Prop) xs : forall (m : gmap string entry),
  (forall k v, m !! k = Some v -> Q k v) ->
  (forall line k v, parse_line E line = Some (k, v) -> Q k v) ->
  forall k v,
  fold_left (fun (h : gmap string entry) line => match parse_line E line with
             | Some (host, e) => <[host := e]> h | None => h end) xs m !! k = Some v -> Q k v.
Proof.
  induction xs as [|x xs IH]; intros m Hm Hl; cbn; [exact Hm|].
  apply IH; [|exact Hl].
  destruct (parse_line E x) as [[host e]|] eqn:Hx; [|exact Hm].
  intros k v Hk. destruct (decide (k = host)) as [->|Hne].
  - rewrite lookup_insert_eq in Hk. injection Hk as <-. by apply (Hl x).
  - rewrite lookup_insert_ne in Hk by congruence. by apply Hm.
Qed.

(** X (shape of parsed entries). Every key of a parsed hosts table is a
    non-empty, whitespace-free and already lower-case hostname. Its
    address is a non-empty, whitespace-free string that
    [ipaddress.ip_address] accepts. Its family is AF_INET6 exactly when
    the address contains ':'. *)
Theorem X_parsed_entry_shape (E : env) (text k ip : string) (af : Z)
    (H : parse_hosts E text !! k = Some (ip, af)) :
  k <> EmptyString /\ no_space k = true /\ lower k = k /\
  ip <> EmptyString /\ no_space ip = true /\ ip_address_ok E ip = true /\
  af = (if contains_colon ip then AF_INET6 else AF_INET).
Proof.
  refine (parse_fold_invariant E (entry_shape E) (splitlines text) ∅ _ _ k (ip, af) H).
  - intros k' v Hv. by rewrite lookup_empty in Hv.
  - intros line k' v Hl. exact (parse_line_shape E line k' v Hl).
Qed.

Lemma X_parsed_entry_shape_witness :
  parse_hosts net_up demo_primary !! "github.com" = Some ("140.82.112.3", AF_INET) /\
  ("github.com" <> EmptyString /\ no_space "github.com" = true /\ lower "github.com" = "github.com" /\
   "140.82.112.3" <> EmptyString /\ no_space "140.82.112.3" = true /\
   ip_address_ok net_up "140.82.112.3" = true /\
   AF_INET = (if contains_colon "140.82.112.3" then AF_INET6 else AF_INET)).
Proof.
  assert (H : parse_hosts net_up demo_primary !! "github.com" = Some ("140.82.112.3", AF_INET))
    by (vm_compute; reflexivity).
  split; [exact H|]. exact (X_parsed_entry_shape net_up demo_primary "github.com" "140.82.112.3" AF_INET H).
Defined.
